(** * Fake-news detector: the inference-and-presentation flow of [app.py]

    The development embeds the Streamlit script [app.py]: the artifact
    loader [load_models], the inference operation [predict_news], the
    submission handler of the first column and the history section of the
    second one.  The script is re-executed from top to bottom at every
    interaction; one execution is the function [run_app] below, acting on the
    session state (the [history] key of [st.session_state]) and on the list
    of elements drawn on the page.

    Modelling choices.
    - A Python [str] is its list of Unicode code points.
    - A floating-point value is the rational it denotes: the script only
      selects and forwards the probabilities, it never computes with them
      (the percentage formatting of the display is left out of the events).
    - The two artifacts are opaque objects with the three methods the script
      calls; each method is a function that returns or raises.
    - An exception is an instance of Python's [Exception]; interpreter exits
      ([KeyboardInterrupt], [SystemExit]) are outside the model.
    - Every call of an artifact method is recorded on the trace next to the
      page elements, so that "no inference is attempted" can be stated. *)

From Stdlib Require Import String Ascii List ZArith NArith QArith Qabs Lia Bool.
Import ListNotations.

Open Scope string_scope.
Open Scope list_scope.

(** ** Python values *)

Module Py.

(** [str]: a sequence of code points. *)
Definition str := list N.

(** A string literal of the source, as code points. *)
Definition lit (s : string) : str :=
  map N_of_ascii (list_ascii_of_string s).

(** [str.isspace] on one code point: the white-space table of CPython. *)
Definition isspace (c : N) : bool :=
  (((9 <=? c) && (c <=? 13)) || ((28 <=? c) && (c <=? 32))
   || (c =? 133) || (c =? 160) || (c =? 5760)
   || ((8192 <=? c) && (c <=? 8202))
   || (c =? 8232) || (c =? 8233) || (c =? 8239) || (c =? 8287)
   || (c =? 12288))%N.

Fixpoint lstrip (s : str) : str :=
  match s with
  | [] => []
  | c :: s' => if isspace c then lstrip s' else s
  end.

Definition rstrip (s : str) : str := rev (lstrip (rev s)).

(** [s.strip()] with no argument. *)
Definition strip (s : str) : str := rstrip (lstrip s).

(** [s == ""]. *)
Definition is_empty (s : str) : bool :=
  match s with [] => true | _ :: _ => false end.

(** An instance of [Exception]: its class name and its message. *)
Inductive exn := Exception (cls msg : string).

(** The outcome of evaluating an expression: a value or a raised exception. *)
Inductive outcome (A : Type) :=
| Val (a : A)
| Raise (e : exn).
Arguments Val {A} a.
Arguments Raise {A} e.

Definition IndexError : exn := Exception "IndexError" "index out of range".

Definition AttributeError (attr : string) : exn :=
  Exception "AttributeError"
            ("'NoneType' object has no attribute '" ++ attr ++ "'").

(** [l[i]] for a non-negative constant [i]. *)
Definition getitem {A : Type} (l : list A) (i : nat) : outcome A :=
  match nth_error l i with
  | Some a => Val a
  | None => Raise IndexError
  end.

(** [l[-n:]] for a positive constant [n]. *)
Definition last_slice {A : Type} (n : nat) (l : list A) : list A :=
  skipn (length l - n) l.

(** [l[:n]]. *)
Definition first_slice {A : Type} (n : nat) (l : list A) : list A :=
  firstn n l.

End Py.

Import Py.

(** ** The artifacts *)

(** A feature matrix, one row per document. *)
Definition matrix := list (list Q).

(** A fitted scikit-learn object, seen through the methods the script calls.
    A method the object lacks is a method that raises. *)
Record Estimator := {
  transform : list str -> outcome matrix;
  predict : matrix -> outcome (list Z);
  predict_proba : matrix -> outcome (list (list Q))
}.

(** What [joblib.load] may yield: [None] or an object. *)
Inductive pyobj :=
| PyNone
| PyObject (o : Estimator).

Definition is_not_None (o : pyobj) : bool :=
  match o with PyNone => false | PyObject _ => true end.

(** The files [joblib.load] can read, by name. *)
Definition disk := string -> outcome pyobj.

(** ** Records of the script *)

(** The dictionary returned by [predict_news]. *)
Record Prediction := {
  prediction : string;
  confidence : Q;
  probabilities : list Q
}.

(** One element of [st.session_state.history]. *)
Record Item := {
  text : str;
  result : Prediction
}.

(** ** The page and the trace *)

Inductive message :=
| LoadingError (e : exn)       (* "Error loading model files: {e}" *)
| PredictionError (e : exn)    (* "Prediction error: {e}" *)
| ModelFilesNotFound.          (* "Model files not found or could not be loaded. ..." *)

Inductive event :=
| Call_transform (docs : list str)
| Call_predict (x : matrix)
| Call_predict_proba (x : matrix)
| St_page_config
| St_style
| St_header
| St_footer
| St_text_area
| St_button
| St_spinner
| St_error (m : message)
| St_warning                   (* "Please enter some text to analyze." *)
| St_result_box (box_class label : string) (conf : Q)
| St_subheader
| St_bar_chart (pFake pReal : Q)
| St_info_card
| St_recent_checks
| St_expander (label : string) (preview body : str) (conf : Q).

(** An event of the inference operation: a call of an artifact method. *)
Definition is_inference_call (ev : event) : bool :=
  match ev with
  | Call_transform _ | Call_predict _ | Call_predict_proba _ => true
  | _ => false
  end.

Definition is_error (ev : event) : bool :=
  match ev with St_error _ => true | _ => false end.

(** ** The state of one execution *)

(** [history]: the [history] key of [st.session_state], absent ([None]) until
    the script creates it; [trace]: what happened so far, oldest first. *)
Record state := {
  history : option (list Item);
  trace : list event
}.

(** A statement of the script: it reads and writes the state and either
    completes with a value or raises. *)
Definition App (A : Type) : Type := state -> outcome A * state.

Definition ret {A : Type} (a : A) : App A := fun s => (Val a, s).

Definition bind {A B : Type} (m : App A) (k : A -> App B) : App B :=
  fun s =>
    match m s with
    | (Val a, s') => k a s'
    | (Raise e, s') => (Raise e, s')
    end.

Declare Scope app_scope.
Delimit Scope app_scope with app.
Notation "x <- m ;; k" := (bind m (fun x => k))
  (at level 61, m at next level, right associativity) : app_scope.
Notation "m ;; k" := (bind m (fun _ => k))
  (at level 61, right associativity) : app_scope.
Open Scope app_scope.

(** Evaluate an expression that may raise. *)
Definition lift {A : Type} (o : outcome A) : App A := fun s => (o, s).

Definition emit (ev : event) : App unit :=
  fun s => (Val tt, {| history := history s; trace := trace s ++ [ev] |}).

(** [try: body  except Exception as e: handler e]. *)
Definition try_except {A : Type} (body : App A) (handler : exn -> App A)
  : App A :=
  fun s =>
    match body s with
    | (Val a, s') => (Val a, s')
    | (Raise e, s') => handler e s'
    end.

(** Method calls; calling a method of [None] raises [AttributeError]. *)
Definition call_transform (o : pyobj) (docs : list str) : App matrix :=
  emit (Call_transform docs) ;;
  lift match o with
       | PyNone => Raise (AttributeError "transform")
       | PyObject v => transform v docs
       end.

Definition call_predict (o : pyobj) (x : matrix) : App (list Z) :=
  emit (Call_predict x) ;;
  lift match o with
       | PyNone => Raise (AttributeError "predict")
       | PyObject m => predict m x
       end.

Definition call_predict_proba (o : pyobj) (x : matrix) : App (list (list Q)) :=
  emit (Call_predict_proba x) ;;
  lift match o with
       | PyNone => Raise (AttributeError "predict_proba")
       | PyObject m => predict_proba m x
       end.

(** ** [load_models] *)

Definition model_file : string := "ensemble_fake_news_model.pkl".
Definition vectorizer_file : string := "tfidf_vectorizer.pkl".

Definition load_models (joblib_load : disk) : App (pyobj * pyobj) :=
  try_except
    (model <- lift (joblib_load model_file) ;;
     vectorizer <- lift (joblib_load vectorizer_file) ;;
     ret (model, vectorizer))
    (fun e => emit (St_error (LoadingError e)) ;; ret (PyNone, PyNone)).

(** ** [predict_news] *)

Definition predict_news (news_text : str) (model vectorizer : pyobj)
  : App (option Prediction) :=
  try_except
    (news_vector <- call_transform vectorizer [news_text] ;;
     predictions <- call_predict model news_vector ;;
     prediction <- lift (getitem predictions 0) ;;
     all_probabilities <- call_predict_proba model news_vector ;;
     probabilities <- lift (getitem all_probabilities 0) ;;
     confidence <- lift (if (prediction =? 1)%Z
                         then getitem probabilities 1
                         else getitem probabilities 0) ;;
     ret (Some {| prediction := if (prediction =? 1)%Z then "REAL" else "FAKE";
                  confidence := confidence;
                  probabilities := probabilities |}))
    (fun e => emit (St_error (PredictionError e)) ;; ret None).

(** ** The session state *)

(** Reading [st.session_state.history]; the key must exist. *)
Definition get_history : App (list Item) :=
  fun s =>
    match history s with
    | Some h => (Val h, s)
    | None => (Raise (Exception "AttributeError"
                        "st.session_state has no attribute 'history'"), s)
    end.

(** [if 'history' not in st.session_state: st.session_state.history = []]. *)
Definition init_history : App unit :=
  fun s =>
    match history s with
    | Some _ => (Val tt, s)
    | None => (Val tt, {| history := Some []; trace := trace s |})
    end.

(** [st.session_state.history.append(item)]. *)
Definition history_append (item : Item) : App unit :=
  fun s =>
    match history s with
    | Some h => (Val tt, {| history := Some (h ++ [item]); trace := trace s |})
    | None => (Raise (Exception "AttributeError"
                        "st.session_state has no attribute 'history'"), s)
    end.

(** [for x in l: body x]. *)
Fixpoint for_each {A : Type} (l : list A) (body : A -> App unit) : App unit :=
  match l with
  | [] => ret tt
  | a :: l' => body a ;; for_each l' body
  end.

(** ** The first column: input and submission *)

(** What the widgets return in one execution. *)
Record Input := {
  news_text : str;
  analyze_button : bool
}.

(** The result box, then the chart; the data frame of the chart reads both
    probabilities before anything of the chart is drawn. *)
Definition show_result (result : Prediction) : App unit :=
  let box_class :=
    if String.eqb (prediction result) "REAL" then "real-box" else "fake-box" in
  emit (St_result_box box_class (prediction result) (confidence result)) ;;
  p0 <- lift (getitem (probabilities result) 0) ;;
  p1 <- lift (getitem (probabilities result) 1) ;;
  emit St_subheader ;;
  emit (St_bar_chart p0 p1).

Definition column1 (inp : Input) (model vectorizer : pyobj) : App unit :=
  emit St_text_area ;;
  emit St_button ;;
  init_history ;;
  if analyze_button inp then
    if is_empty (strip (news_text inp)) then
      emit St_warning
    else
      emit St_spinner ;;
      result <- predict_news (news_text inp) model vectorizer ;;
      match result with
      | Some r =>
          history_append {| text := news_text inp; result := r |} ;;
          show_result r
      | None => ret tt
      end
  else ret tt.

(** ** The second column: information card and recent checks *)

Definition expander (item : Item) : event :=
  St_expander (prediction (result item))
              (first_slice 50 (text item))
              (text item)
              (confidence (result item)).

Definition is_expander (ev : event) : bool :=
  match ev with St_expander _ _ _ _ => true | _ => false end.

Definition column2 : App unit :=
  emit St_info_card ;;
  h <- get_history ;;
  match h with
  | [] => ret tt
  | _ :: _ =>
      emit St_recent_checks ;;
      h' <- get_history ;;
      for_each (rev (last_slice 5 h')) (fun item => emit (expander item))
  end.

(** ** One execution of the script *)

Definition run_app (joblib_load : disk) (inp : Input) : App unit :=
  emit St_page_config ;;
  emit St_style ;;
  emit St_header ;;
  loaded <- load_models joblib_load ;;
  let '(model, vectorizer) := loaded in
  (if is_not_None model && is_not_None vectorizer then
     column1 inp model vectorizer ;;
     column2
   else
     emit (St_error ModelFilesNotFound)) ;;
  emit St_footer.

(** A fresh session on an empty page. *)
Definition fresh : state := {| history := None; trace := [] |}.

(** The elements of the recent-checks list on a page. *)
Definition displayed (s : state) : list event := filter is_expander (trace s).

(** The entries stored in the buffer ([[]] while the key is absent). *)
Definition stored (s : state) : list Item :=
  match history s with Some h => h | None => [] end.

(** ** Sample artifacts *)

Module Sample.

Definition no_method {A : Type} (name : string) : outcome A :=
  Raise (Exception "AttributeError" ("object has no attribute '" ++ name ++ "'")).

(** A vectorizer with one feature: the length of the document. *)
Definition length_vectorizer : Estimator := {|
  transform := fun docs =>
    Val (map (fun d : str => [inject_Z (Z.of_nat (length d))]) docs);
  predict := fun _ => no_method "predict";
  predict_proba := fun _ => no_method "predict_proba"
|}.

(** A classifier that answers the same index and the same row always. *)
Definition constant_classifier (idx : Z) (row : list Q) : Estimator := {|
  transform := fun _ => no_method "transform";
  predict := fun x => Val (map (fun _ => idx) x);
  predict_proba := fun x => Val (map (fun _ => row) x)
|}.

(** A classifier on the length feature: documents longer than 30 code
    points are real with probability 0.92, the others fake with 0.77. *)
Definition is_long (r : list Q) : bool :=
  match r with
  | [n] => Qle_bool 31 n
  | _ => false
  end.

Definition length_classifier : Estimator := {|
  transform := fun _ => no_method "transform";
  predict := fun x => Val (map (fun r => if is_long r then 1%Z else 0%Z) x);
  predict_proba := fun x =>
    Val (map (fun r => if is_long r then [0.08; 0.92] else [0.77; 0.23]) x)
|}.

(** A vectorizer whose [transform] fails. *)
Definition broken_vectorizer : Estimator := {|
  transform := fun _ => Raise (Exception "ValueError" "vocabulary not fitted");
  predict := fun _ => no_method "predict";
  predict_proba := fun _ => no_method "predict_proba"
|}.

Definition files (model vectorizer : outcome pyobj) : disk :=
  fun name =>
    if String.eqb name model_file then model
    else if String.eqb name vectorizer_file then vectorizer
    else Raise (Exception "FileNotFoundError" name).

Definition good_files : disk :=
  files (Val (PyObject length_classifier)) (Val (PyObject length_vectorizer)).

Definition vaccine : str := lit "Scientists confirm vaccine safety".
Definition pyramids : str := lit "Aliens built the pyramids".

Definition real_092 : Prediction :=
  {| prediction := "REAL"; confidence := 0.92; probabilities := [0.08; 0.92] |}.
Definition fake_077 : Prediction :=
  {| prediction := "FAKE"; confidence := 0.77; probabilities := [0.77; 0.23] |}.

End Sample.

(** ** Vocabulary of the statements *)

(** The tolerance of the probability sum, 1e-6. *)
Definition tolerance : Q := 1 # 1000000.

(** A row of [predict_proba] that is a two-class distribution. *)
Definition sums_to_one (row : list Q) : Prop :=
  exists p0 p1, row = [p0; p1] /\ (Qabs (p0 + p1 - 1) <= tolerance)%Q.

(** Whatever [predict_proba] of the classifier answers, its first row is a
    two-class distribution. *)
Definition two_class_classifier (m : Estimator) : Prop :=
  forall x row more,
    predict_proba m x = Val (row :: more) -> sums_to_one row.

(** The transform step or a predict step of the inference on [t] raises [e]. *)
Definition inference_step_raises (m v : Estimator) (t : str) (e : exn) : Prop :=
  transform v [t] = Raise e \/
  exists x, transform v [t] = Val x /\
    (predict m x = Raise e \/
     exists idx rest, predict m x = Val (idx :: rest) /\
                      predict_proba m x = Raise e).

(** Both files load, and yield the objects [m] and [v]. *)
Definition loaded (joblib_load : disk) (m v : Estimator) : Prop :=
  joblib_load model_file = Val (PyObject m) /\
  joblib_load vectorizer_file = Val (PyObject v).

(** The state after a successful inference: three calls on the trace. *)
Definition after_inference (t : str) (x : matrix) (s : state) : state :=
  {| history := history s;
     trace := trace s ++ [Call_transform [t]; Call_predict x; Call_predict_proba x] |}.

(** The dictionary built from the index and the first row. *)
Definition result_of (idx : Z) (row : list Q) (c : Q) : Prediction :=
  {| prediction := if (idx =? 1)%Z then "REAL" else "FAKE";
     confidence := c;
     probabilities := row |}.

(** What the second column draws below the information card. *)
Definition recent_checks (h : list Item) : list event :=
  match h with
  | [] => []
  | _ :: _ => St_recent_checks :: map expander (rev (last_slice 5 h))
  end.

(** ** Vocabulary of the further properties *)

(** What the script draws before it loads the artifacts. *)
Definition page_top : list event := [St_page_config; St_style; St_header].

(** The box of [show_result]. *)
Definition result_box (r : Prediction) : event :=
  St_result_box
    (if String.eqb (prediction r) "REAL" then "real-box" else "fake-box")
    (prediction r) (confidence r).

(** The next execution of the script in a session: Streamlit keeps the
    session state, also after an uncaught exception, and redraws the page
    from nothing. *)
Definition rerun (joblib_load : disk) (s : state) (inp : Input) : state :=
  snd (run_app joblib_load inp {| history := history s; trace := [] |}).

(** A session: the executions for a sequence of interactions, in order. *)
Definition session (joblib_load : disk) (inputs : list Input) (s : state)
  : state :=
  fold_left (rerun joblib_load) inputs s.

(** Artifacts for the edge cases. *)
Module Edge.

(** A classifier fitted on one class: one column of probabilities. *)
Definition one_class_classifier : Estimator := {|
  transform := fun _ => Sample.no_method "transform";
  predict := fun x => Val (map (fun _ => 0%Z) x);
  predict_proba := fun x => Val (map (fun _ => [1%Q]) x)
|}.

(** A classifier that answers with empty arrays. *)
Definition silent_classifier : Estimator := {|
  transform := fun _ => Sample.no_method "transform";
  predict := fun _ => Val [];
  predict_proba := fun _ => Val []
|}.

Definition pressed (t : str) : Input :=
  {| news_text := t; analyze_button := true |}.

Definition idle (t : str) : Input :=
  {| news_text := t; analyze_button := false |}.

End Edge.

(** * Properties *)

(** ** Proof steps shared by the statements about [predict_news] *)

Ltac unfold_app :=
  cbv [predict_news load_models try_except bind call_transform call_predict
       call_predict_proba emit lift ret getitem init_history history_append
       get_history show_result].

(** Split on the next artifact call or subscript the execution is stuck on. *)
Ltac case_step :=
  match goal with
  | |- context [match transform ?v ?d with _ => _ end] =>
      destruct (transform v d) eqn:?
  | |- context [match predict ?m ?x with _ => _ end] =>
      destruct (predict m x) eqn:?
  | |- context [match predict_proba ?m ?x with _ => _ end] =>
      destruct (predict_proba m x) eqn:?
  | |- context [match nth_error ?l ?i with _ => _ end] =>
      destruct (nth_error l i) eqn:?
  | |- context [if (?a =? ?b)%Z then _ else _] =>
      destruct (Z.eqb_spec a b)
  | |- context [match ?o with PyNone => _ | PyObject _ => _ end] =>
      destruct o
  end; cbn [fst snd history trace].

Ltac cases := unfold_app; cbn [fst snd history trace]; repeat case_step.

(** [predict_news] catches whatever its body raises. *)
Lemma predict_news_never_raises (t : str) (model vectorizer : pyobj) (s : state) :
  exists r, fst (predict_news t model vectorizer s) = Val r.
Proof. cases; eauto. Qed.

(** [predict_news] does not touch the session state. *)
Lemma predict_news_history (t : str) (model vectorizer : pyobj) (s : state) :
  history (snd (predict_news t model vectorizer s)) = history s.
Proof. cases; reflexivity. Qed.

(** What [predict_news] returns does not depend on the state it starts in. *)
Lemma predict_news_value (t : str) (model vectorizer : pyobj) (s1 s2 : state) :
  fst (predict_news t model vectorizer s1) = fst (predict_news t model vectorizer s2).
Proof. cases; reflexivity. Qed.

(** The trace only grows. *)
Lemma predict_news_trace (t : str) (model vectorizer : pyobj) (s : state) :
  exists new, trace (snd (predict_news t model vectorizer s)) = trace s ++ new.
Proof.
  cases; rewrite <- ?app_assoc; eauto.
Qed.

(** ** Success of [predict_news], both ways *)

Lemma predict_news_returns
    (t : str) (m v : Estimator) (x : matrix) (idx : Z) (rest : list Z)
    (row : list Q) (more : list (list Q)) (c : Q) (s : state) :
  transform v [t] = Val x ->
  predict m x = Val (idx :: rest) ->
  predict_proba m x = Val (row :: more) ->
  nth_error row (if (idx =? 1)%Z then 1 else 0) = Some c ->
  predict_news t (PyObject m) (PyObject v) s
  = (Val (Some (result_of idx row c)), after_inference t x s).
Proof.
  intros Htr Hpr Hpp Hc.
  unfold_app. cbn [fst snd history trace].
  rewrite Htr. cbn [history trace]. rewrite Hpr. cbn [nth_error history trace].
  rewrite Hpp. unfold result_of, after_inference.
  destruct (idx =? 1)%Z.
  - destruct row as [|p0 [|p1 row]]; try discriminate.
    injection Hc as <-. cbn [nth_error history trace].
    rewrite <- !app_assoc. reflexivity.
  - destruct row as [|p0 row]; try discriminate.
    injection Hc as <-. cbn [nth_error history trace].
    rewrite <- !app_assoc. reflexivity.
Qed.

Lemma predict_news_Some
    (t : str) (model vectorizer : pyobj) (s s' : state) (r : Prediction) :
  predict_news t model vectorizer s = (Val (Some r), s') ->
  exists m v x idx rest row more c,
    model = PyObject m /\ vectorizer = PyObject v /\
    transform v [t] = Val x /\
    predict m x = Val (idx :: rest) /\
    predict_proba m x = Val (row :: more) /\
    nth_error row (if (idx =? 1)%Z then 1 else 0) = Some c /\
    r = result_of idx row c /\
    s' = after_inference t x s.
Proof.
  unfold_app. cbn [fst snd history trace].
  destruct vectorizer as [|v]; [discriminate|].
  destruct (transform v [t]) as [x|] eqn:Htr; [|discriminate].
  cbn [history trace].
  destruct model as [|m]; [discriminate|].
  destruct (predict m x) as [[|idx rest]|] eqn:Hpr; try discriminate.
  cbn [nth_error history trace].
  destruct (predict_proba m x) as [[|row more]|] eqn:Hpp; try discriminate.
  intros H. exists m, v, x, idx, rest, row, more.
  unfold result_of, after_inference.
  destruct (idx =? 1)%Z.
  - destruct row as [|p0 [|p1 row]]; try discriminate.
    exists p1. cbn [nth_error history trace] in H.
    inversion H; subst. rewrite <- !app_assoc. repeat split; auto.
  - destruct row as [|p0 row]; try discriminate.
    exists p0. cbn [nth_error history trace] in H.
    inversion H; subst. rewrite <- !app_assoc. repeat split; auto.
Qed.

(** ** The label and the confidence *)

(** C1. For a text on which the classifier predicts the index [idx]: every
    result [predict_news] returns has the label "REAL" if [idx] is 1 and
    "FAKE" if it is 0, and its label is "REAL" exactly when [idx] is 1; and
    such a result is returned whenever [predict_proba] answers with a row
    that has an entry at the predicted class. *)
Theorem label_REAL_iff_index_1
    (t : str) (m v : Estimator) (x : matrix) (idx : Z) (rest : list Z)
    (s : state) :
  transform v [t] = Val x ->
  predict m x = Val (idx :: rest) ->
  (forall r s',
      predict_news t (PyObject m) (PyObject v) s = (Val (Some r), s') ->
      (idx = 1%Z -> prediction r = "REAL") /\
      (idx = 0%Z -> prediction r = "FAKE") /\
      (prediction r = "REAL" <-> idx = 1%Z)) /\
  (forall row more c,
      predict_proba m x = Val (row :: more) ->
      nth_error row (if (idx =? 1)%Z then 1 else 0) = Some c ->
      exists r s',
        predict_news t (PyObject m) (PyObject v) s = (Val (Some r), s') /\
        (prediction r = "REAL" <-> idx = 1%Z)).
Proof.
  intros Htr Hpr.
  assert (Hlabel : forall row c,
             (idx = 1%Z -> prediction (result_of idx row c) = "REAL") /\
             (idx = 0%Z -> prediction (result_of idx row c) = "FAKE") /\
             (prediction (result_of idx row c) = "REAL" <-> idx = 1%Z)).
  { intros row c. cbn [result_of prediction].
    destruct (Z.eqb_spec idx 1) as [->|Hne].
    - repeat split; intros; try reflexivity; lia.
    - repeat split; intros; try reflexivity; try lia; discriminate. }
  split.
  - intros r s' H. apply predict_news_Some in H.
    destruct H as (m' & v' & x' & idx' & rest' & row & more & c
                   & Em & Ev & Htr' & Hpr' & _ & _ & -> & _).
    injection Em as <-. injection Ev as <-.
    rewrite Htr in Htr'. injection Htr' as <-.
    rewrite Hpr in Hpr'. injection Hpr' as <- <-.
    apply Hlabel.
  - intros row more c Hpp Hc.
    exists (result_of idx row c), (after_inference t x s). split.
    + exact (predict_news_returns t m v x idx rest row more c s Htr Hpr Hpp Hc).
    + apply Hlabel.
Qed.

Lemma label_REAL_iff_index_1_witness :
  (forall r s',
      predict_news Sample.vaccine (PyObject Sample.length_classifier)
        (PyObject Sample.length_vectorizer) fresh = (Val (Some r), s') ->
      ((1 = 1)%Z -> prediction r = "REAL") /\
      ((1 = 0)%Z -> prediction r = "FAKE") /\
      (prediction r = "REAL" <-> (1 = 1)%Z)) /\
  (forall row more c,
      predict_proba Sample.length_classifier [[33]] = Val (row :: more) ->
      nth_error row 1 = Some c ->
      exists r s',
        predict_news Sample.vaccine (PyObject Sample.length_classifier)
          (PyObject Sample.length_vectorizer) fresh = (Val (Some r), s') /\
        (prediction r = "REAL" <-> (1 = 1)%Z)).
Proof.
  apply (label_REAL_iff_index_1 Sample.vaccine Sample.length_classifier
           Sample.length_vectorizer [[33]] 1 [] fresh);
    reflexivity.
Defined.

(** C2. The confidence of every result [predict_news] returns is the entry
    of its probabilities at the predicted class: index 1 under the label
    "REAL", index 0 under the label "FAKE"; there is no other label. *)
Theorem confidence_is_predicted_class_probability
    (t : str) (model vectorizer : pyobj) (s s' : state) (r : Prediction) :
  predict_news t model vectorizer s = (Val (Some r), s') ->
  (prediction r = "REAL" -> nth_error (probabilities r) 1 = Some (confidence r)) /\
  (prediction r = "FAKE" -> nth_error (probabilities r) 0 = Some (confidence r)) /\
  (prediction r = "REAL" \/ prediction r = "FAKE").
Proof.
  intros H. apply predict_news_Some in H.
  destruct H as (m & v & x & idx & rest & row & more & c
                 & _ & _ & _ & _ & _ & Hc & -> & _).
  cbn [result_of prediction probabilities confidence].
  destruct (idx =? 1)%Z; repeat split; try discriminate; auto.
Qed.

Lemma confidence_is_predicted_class_probability_witness :
  (prediction Sample.fake_077 = "REAL" ->
   nth_error (probabilities Sample.fake_077) 1 = Some (confidence Sample.fake_077)) /\
  (prediction Sample.fake_077 = "FAKE" ->
   nth_error (probabilities Sample.fake_077) 0 = Some (confidence Sample.fake_077)) /\
  (prediction Sample.fake_077 = "REAL" \/ prediction Sample.fake_077 = "FAKE").
Proof.
  eapply (confidence_is_predicted_class_probability Sample.pyramids
            (PyObject Sample.length_classifier)
            (PyObject Sample.length_vectorizer) fresh).
  reflexivity.
Defined.

(** C7. The two scenarios: a classifier that predicts index 1 with the row
    [0.08, 0.92] for one text yields the label "REAL" with confidence 0.92;
    index 0 with the row [0.77, 0.23] for another text yields the label "FAKE"
    with confidence 0.77. *)
Theorem scenarios_real_092_fake_077
    (t1 t2 : str) (m v : Estimator) (x1 x2 : matrix) (rest1 rest2 : list Z)
    (more1 more2 : list (list Q)) (s : state) :
  transform v [t1] = Val x1 ->
  predict m x1 = Val (1%Z :: rest1) ->
  predict_proba m x1 = Val ([0.08; 0.92] :: more1) ->
  transform v [t2] = Val x2 ->
  predict m x2 = Val (0%Z :: rest2) ->
  predict_proba m x2 = Val ([0.77; 0.23] :: more2) ->
  fst (predict_news t1 (PyObject m) (PyObject v) s)
  = Val (Some {| prediction := "REAL"; confidence := 0.92;
                 probabilities := [0.08; 0.92] |}) /\
  fst (predict_news t2 (PyObject m) (PyObject v) s)
  = Val (Some {| prediction := "FAKE"; confidence := 0.77;
                 probabilities := [0.77; 0.23] |}).
Proof.
  intros T1 P1 Q1 T2 P2 Q2. split.
  - rewrite (predict_news_returns t1 m v x1 1 rest1 _ more1 0.92 s T1 P1 Q1 eq_refl).
    reflexivity.
  - rewrite (predict_news_returns t2 m v x2 0 rest2 _ more2 0.77 s T2 P2 Q2 eq_refl).
    reflexivity.
Qed.

Lemma scenarios_real_092_fake_077_witness :
  fst (predict_news Sample.vaccine (PyObject Sample.length_classifier)
         (PyObject Sample.length_vectorizer) fresh)
  = Val (Some Sample.real_092) /\
  fst (predict_news Sample.pyramids (PyObject Sample.length_classifier)
         (PyObject Sample.length_vectorizer) fresh)
  = Val (Some Sample.fake_077).
Proof.
  apply (scenarios_real_092_fake_077 Sample.vaccine Sample.pyramids
           Sample.length_classifier Sample.length_vectorizer
           [[33]] [[25]] [] [] [] [] fresh);
    reflexivity.
Defined.

(** C9. When the classifier's index is anything but 1, index 2 of a
    multi-class artifact included, [predict_news] succeeds: the label is
    "FAKE" and the confidence is the first entry of the probabilities; no
    error is raised or shown and no third label exists. *)
Theorem index_other_than_1_is_FAKE
    (t : str) (m v : Estimator) (x : matrix) (idx : Z) (rest : list Z)
    (p0 : Q) (ps : list Q) (more : list (list Q)) (s : state) :
  transform v [t] = Val x ->
  predict m x = Val (idx :: rest) ->
  idx <> 1%Z ->
  predict_proba m x = Val ((p0 :: ps) :: more) ->
  predict_news t (PyObject m) (PyObject v) s
  = (Val (Some {| prediction := "FAKE"; confidence := p0;
                  probabilities := p0 :: ps |}),
     {| history := history s;
        trace := trace s ++ [Call_transform [t]; Call_predict x;
                             Call_predict_proba x] |}).
Proof.
  intros Htr Hpr Hne Hpp.
  apply Z.eqb_neq in Hne.
  rewrite (predict_news_returns t m v x idx rest (p0 :: ps) more p0 s Htr Hpr Hpp)
    by (rewrite Hne; reflexivity).
  unfold result_of. rewrite Hne. reflexivity.
Qed.

Lemma index_other_than_1_is_FAKE_witness :
  predict_news Sample.vaccine
    (PyObject (Sample.constant_classifier 2 [0.2; 0.3; 0.5]))
    (PyObject Sample.length_vectorizer) fresh
  = (Val (Some {| prediction := "FAKE"; confidence := 0.2;
                  probabilities := [0.2; 0.3; 0.5] |}),
     {| history := None;
        trace := [Call_transform [Sample.vaccine]; Call_predict [[33]];
                  Call_predict_proba [[33]]] |}).
Proof.
  apply (index_other_than_1_is_FAKE Sample.vaccine
           (Sample.constant_classifier 2 [0.2; 0.3; 0.5])
           Sample.length_vectorizer [[33]] 2 [] 0.2 [0.3; 0.5] [] fresh);
    try reflexivity.
  discriminate.
Defined.

(** ** The probabilities are passed through *)

(** C8. For a non-empty text and a classifier whose [predict_proba] answers
    with a two-class distribution summing to 1 (within 1e-6): every result
    [predict_news] returns carries two probabilities that sum to 1 within the
    tolerance; and when the three artifact calls answer, a result is
    returned, with the row of [predict_proba] as its probabilities,
    unmodified. *)
Theorem probabilities_sum_to_one
    (t : str) (m v : Estimator) (s : state) :
  t <> [] ->
  two_class_classifier m ->
  (forall r s', predict_news t (PyObject m) (PyObject v) s = (Val (Some r), s') ->
                sums_to_one (probabilities r)) /\
  (forall x idx rest row more,
      transform v [t] = Val x ->
      predict m x = Val (idx :: rest) ->
      predict_proba m x = Val (row :: more) ->
      exists r s', predict_news t (PyObject m) (PyObject v) s = (Val (Some r), s') /\
                   probabilities r = row /\
                   sums_to_one (probabilities r)).
Proof.
  intros _ Hm. split.
  - intros r s' H. apply predict_news_Some in H.
    destruct H as (m' & v' & x & idx & rest & row & more & c
                   & Em & _ & _ & _ & Hpp & _ & -> & _).
    injection Em as <-. exact (Hm x row more Hpp).
  - intros x idx rest row more Htr Hpr Hpp.
    assert (Hsum := Hm x row more Hpp).
    assert (Hrow := Hsum). destruct Hrow as (p0 & p1 & -> & _).
    exists (result_of idx [p0; p1] (if (idx =? 1)%Z then p1 else p0)).
    eexists. split.
    + apply (predict_news_returns t m v x idx rest [p0; p1] more _ s Htr Hpr Hpp).
      destruct (idx =? 1)%Z; reflexivity.
    + split; [reflexivity | exact Hsum].
Qed.

Lemma probabilities_sum_to_one_witness :
  (forall r s',
      predict_news Sample.vaccine (PyObject (Sample.constant_classifier 1 [0.08; 0.92]))
        (PyObject Sample.length_vectorizer) fresh = (Val (Some r), s') ->
      sums_to_one (probabilities r)) /\
  (forall x idx rest row more,
      transform Sample.length_vectorizer [Sample.vaccine] = Val x ->
      predict (Sample.constant_classifier 1 [0.08; 0.92]) x = Val (idx :: rest) ->
      predict_proba (Sample.constant_classifier 1 [0.08; 0.92]) x = Val (row :: more) ->
      exists r s',
        predict_news Sample.vaccine (PyObject (Sample.constant_classifier 1 [0.08; 0.92]))
          (PyObject Sample.length_vectorizer) fresh = (Val (Some r), s') /\
        probabilities r = row /\
        sums_to_one (probabilities r)).
Proof.
  apply (probabilities_sum_to_one Sample.vaccine
           (Sample.constant_classifier 1 [0.08; 0.92])
           Sample.length_vectorizer fresh).
  - discriminate.
  - intros [|x0 x] row more; simpl; intros [= <- _].
    exists 0.08, 0.92. split; [reflexivity|].
    vm_compute. discriminate.
Defined.

(** ** The history buffer and its display *)

Lemma for_each_history_append (es h : list Item) (tr : list event) :
  for_each es history_append {| history := Some h; trace := tr |}
  = (Val tt, {| history := Some (h ++ es); trace := tr |}).
Proof.
  revert h. induction es as [|e es IH]; intros h; cbn [for_each].
  - unfold ret. rewrite app_nil_r. reflexivity.
  - unfold bind, history_append at 1. cbn [history trace].
    rewrite IH, <- app_assoc. reflexivity.
Qed.

Lemma for_each_emit (l : list Item) (s : state) :
  for_each l (fun item => emit (expander item)) s
  = (Val tt, {| history := history s; trace := trace s ++ map expander l |}).
Proof.
  revert s. induction l as [|a l IH]; intros s; cbn [for_each map].
  - unfold ret. rewrite app_nil_r. destruct s; reflexivity.
  - unfold bind, emit at 1. rewrite IH. cbn [history trace].
    rewrite <- app_assoc. reflexivity.
Qed.

(** The second column never fails once the buffer exists, and leaves it as
    it is. *)
Lemma column2_draws (h : list Item) (tr : list event) :
  column2 {| history := Some h; trace := tr |}
  = (Val tt, {| history := Some h;
                trace := tr ++ St_info_card :: recent_checks h |}).
Proof.
  unfold column2, bind, emit at 1, get_history. cbn [history trace].
  destruct h as [|e h].
  - reflexivity.
  - unfold emit at 1. cbn [history trace]. rewrite for_each_emit.
    cbn [history trace recent_checks]. rewrite <- !app_assoc. reflexivity.
Qed.

Lemma filter_expander_map (l : list Item) :
  filter is_expander (map expander l) = map expander l.
Proof. induction l as [|a l IH]; cbn; [|rewrite IH]; reflexivity. Qed.

Lemma recent_checks_expanders (h : list Item) :
  filter is_expander (recent_checks h) = map expander (firstn 5 (rev h)).
Proof.
  destruct h as [|e h]; [reflexivity|].
  unfold recent_checks, last_slice. cbn [filter is_expander].
  rewrite filter_expander_map, firstn_rev. reflexivity.
Qed.

Lemma recent_checks_no_call (h : list Item) :
  filter is_inference_call (recent_checks h) = [].
Proof.
  destruct h as [|e h]; [reflexivity|].
  unfold recent_checks. cbn [filter is_inference_call].
  induction (rev (last_slice 5 (e :: h))) as [|a l IH]; [reflexivity|exact IH].
Qed.

Lemma recent_checks_no_error (h : list Item) :
  filter is_error (recent_checks h) = [].
Proof.
  destruct h as [|e h]; [reflexivity|].
  unfold recent_checks. cbn [filter is_error].
  induction (rev (last_slice 5 (e :: h))) as [|a l IH]; [reflexivity|exact IH].
Qed.

(** C3. After appending [k] entries to an empty buffer, the recent-checks
    list shows [min k 5] entries, the most recent first: the first five of
    the insertions read backwards.  The buffer still holds all [k] entries,
    in insertion order. *)
Theorem recent_checks_show_last_five (es : list Item) :
  exists s1 s2,
    for_each es history_append {| history := Some []; trace := [] |} = (Val tt, s1) /\
    column2 s1 = (Val tt, s2) /\
    displayed s2 = map expander (firstn 5 (rev es)) /\
    length (displayed s2) = Nat.min (length es) 5 /\
    history s1 = Some es /\
    history s2 = Some es.
Proof.
  do 2 eexists. split; [apply for_each_history_append|].
  cbn [app]. split; [apply column2_draws|].
  unfold displayed. cbn [history trace app filter is_expander].
  rewrite recent_checks_expanders.
  repeat split.
  rewrite length_map, length_firstn, length_rev. apply Nat.min_comm.
Qed.

(** The scenario of six submissions: the list shows #6, 5, 4, 3, 2. *)
Example six_submissions (e1 e2 e3 e4 e5 e6 : Item) :
  firstn 5 (rev [e1; e2; e3; e4; e5; e6]) = [e6; e5; e4; e3; e2] /\
  rev (last_slice 5 [e1; e2; e3; e4; e5; e6]) = [e6; e5; e4; e3; e2].
Proof. split; reflexivity. Qed.

(** ** Blank input *)

Lemma lstrip_blank (s : str) :
  lstrip s = [] <-> forallb isspace s = true.
Proof.
  induction s as [|c s IH]; cbn [lstrip forallb].
  - split; reflexivity.
  - destruct (isspace c); cbn [andb]; [exact IH | split; discriminate].
Qed.

(** [s.strip()] is empty exactly when [s] holds white space only. *)
Lemma strip_blank (s : str) :
  strip s = [] <-> forallb isspace s = true.
Proof.
  rewrite <- lstrip_blank. unfold strip, rstrip. split.
  - intros H. destruct (lstrip s) as [|c l] eqn:E; [reflexivity|].
    exfalso. revert E H. clear. revert c l.
    induction s as [|a s IH]; intros c l; cbn [lstrip]; [discriminate|].
    destruct (isspace a) eqn:Ea; [apply IH|].
    intros [= -> ->] H.
    apply (f_equal (@rev N)) in H. rewrite rev_involutive in H.
    cbn [rev] in H. apply lstrip_blank in H.
    rewrite forallb_app in H. cbn in H. rewrite Ea in H.
    rewrite andb_false_r in H. discriminate.
  - intros ->. reflexivity.
Qed.

(** ** One execution, by cases *)

Lemma load_models_loaded (jl : disk) (m v : Estimator) (s : state) :
  loaded jl m v ->
  load_models jl s = (Val (PyObject m, PyObject v), s).
Proof.
  intros [Hm Hv]. unfold_app. rewrite Hm, Hv. reflexivity.
Qed.

Lemma load_models_fails (jl : disk) (s : state) :
  (exists e, jl model_file = Raise e) \/ (exists e, jl vectorizer_file = Raise e) ->
  exists e,
    load_models jl s
    = (Val (PyNone, PyNone),
       {| history := history s; trace := trace s ++ [St_error (LoadingError e)] |}).
Proof.
  intros [[e He]|[e He]]; unfold_app.
  - rewrite He. eauto.
  - rewrite He. destruct (jl model_file); eauto.
Qed.

(** With both artifacts loaded the script draws the two columns. *)
Lemma run_app_loaded (jl : disk) (inp : Input) (m v : Estimator) (s : state) :
  loaded jl m v ->
  run_app jl inp s
  = ((column1 inp (PyObject m) (PyObject v) ;; column2) ;; emit St_footer)
      {| history := history s;
         trace := trace s ++ [St_page_config; St_style; St_header] |}.
Proof.
  intros H. unfold run_app. unfold bind at 1, emit at 1.
  unfold bind at 1, emit at 1. unfold bind at 1, emit at 1.
  unfold bind at 1. rewrite (load_models_loaded jl m v _ H).
  cbn [history trace is_not_None andb]. rewrite <- !app_assoc. reflexivity.
Qed.

(** A failed inference leaves the session alone and shows the error. *)
Lemma predict_news_fails (t : str) (m v : Estimator) (e : exn) (s : state) :
  inference_step_raises m v t e ->
  exists calls,
    predict_news t (PyObject m) (PyObject v) s
    = (Val None,
       {| history := history s;
          trace := trace s ++ calls ++ [St_error (PredictionError e)] |}).
Proof.
  intros [Htr|(x & Htr & [Hpr|(idx & rest & Hpr & Hpp)])];
    unfold_app; cbn [fst snd history trace]; rewrite Htr; cbn [history trace].
  - exists [Call_transform [t]]. rewrite <- !app_assoc. reflexivity.
  - rewrite Hpr. cbn [history trace].
    exists [Call_transform [t]; Call_predict x]. rewrite <- !app_assoc. reflexivity.
  - rewrite Hpr. cbn [nth_error history trace]. rewrite Hpp. cbn [history trace].
    exists [Call_transform [t]; Call_predict x; Call_predict_proba x].
    rewrite <- !app_assoc. reflexivity.
Qed.

(** The first column on a submission of text that is not blank. *)
Lemma column1_submission (inp : Input) (model vectorizer : pyobj) (s : state) :
  analyze_button inp = true ->
  strip (news_text inp) <> [] ->
  column1 inp model vectorizer s
  = (result <- predict_news (news_text inp) model vectorizer ;;
     match result with
     | Some r =>
         history_append {| text := news_text inp; result := r |} ;;
         show_result r
     | None => ret tt
     end)
      {| history := Some (stored s);
         trace := trace s ++ [St_text_area; St_button; St_spinner] |}.
Proof.
  intros Hb Ht. unfold column1. rewrite Hb.
  destruct (strip (news_text inp)) eqn:E; [contradiction|]. cbn [is_empty].
  unfold bind at 1, emit at 1. unfold bind at 1, emit at 1.
  unfold bind at 1, init_history, stored. cbn [history trace].
  destruct (history s); unfold bind at 1, emit at 1; cbn [history trace];
    rewrite <- !app_assoc; reflexivity.
Qed.

(** ** Submissions that produce no history entry *)

(** C4. Submitting text that is empty once trimmed calls no artifact method
    and appends nothing to the buffer; the page shows the warning and no
    error. *)
Theorem blank_submission_is_only_warned
    (jl : disk) (inp : Input) (m v : Estimator) (s : state) :
  loaded jl m v ->
  analyze_button inp = true ->
  strip (news_text inp) = [] ->
  exists new,
    run_app jl inp s
    = (Val tt, {| history := Some (stored s); trace := trace s ++ new |}) /\
    filter is_inference_call new = [] /\
    filter is_error new = [] /\
    In St_warning new.
Proof.
  intros Hl Hb Ht.
  exists ([St_page_config; St_style; St_header; St_text_area; St_button;
           St_warning; St_info_card] ++ recent_checks (stored s) ++ [St_footer]).
  split; [|split; [|split]].
  - rewrite (run_app_loaded jl inp m v s Hl).
    unfold bind at 1. unfold bind at 1.
    unfold column1. rewrite Hb, Ht. cbn [is_empty].
    unfold bind at 1, emit at 1. unfold bind at 1, emit at 1.
    unfold bind at 1, init_history, stored. cbn [history trace].
    destruct (history s); unfold emit at 1; cbn [history trace];
      rewrite column2_draws; unfold emit; cbn [history trace];
      rewrite <- !app_assoc; reflexivity.
  - rewrite !filter_app, recent_checks_no_call. reflexivity.
  - rewrite !filter_app, recent_checks_no_error. reflexivity.
  - cbn. auto 10.
Qed.

Lemma blank_submission_is_only_warned_witness :
  exists new,
    run_app Sample.good_files
      {| news_text := lit "   "; analyze_button := true |} fresh
    = (Val tt, {| history := Some []; trace := new |}) /\
    filter is_inference_call new = [] /\
    filter is_error new = [] /\
    In St_warning new.
Proof.
  apply (blank_submission_is_only_warned Sample.good_files
           {| news_text := lit "   "; analyze_button := true |}
           Sample.length_classifier Sample.length_vectorizer fresh).
  - split; reflexivity.
  - reflexivity.
  - reflexivity.
Defined.

(** C5. If loading either file raises, [load_models] returns
    [(None, None)] instead of raising; the script then completes without a
    single artifact call, leaves the session as it is and shows the
    load-error message. *)
Theorem load_failure_disables_inference
    (jl : disk) (inp : Input) (s : state) :
  (exists e, jl model_file = Raise e) \/ (exists e, jl vectorizer_file = Raise e) ->
  fst (load_models jl s) = Val (PyNone, PyNone) /\
  exists new,
    run_app jl inp s
    = (Val tt, {| history := history s; trace := trace s ++ new |}) /\
    filter is_inference_call new = [] /\
    In (St_error ModelFilesNotFound) new.
Proof.
  intros H. split.
  - destruct (load_models_fails jl s H) as [e ->]. reflexivity.
  - unfold run_app. unfold bind at 1, emit at 1.
    unfold bind at 1, emit at 1. unfold bind at 1, emit at 1.
    unfold bind at 1.
    match goal with
    | |- context [load_models jl ?s0] =>
        destruct (load_models_fails jl s0 H) as [e ->]
    end.
    cbn [history trace is_not_None andb]. unfold bind, emit.
    cbn [history trace]. rewrite <- !app_assoc.
    eexists. split; [reflexivity|]. cbn. auto 10.
Qed.

Lemma load_failure_disables_inference_witness :
  fst (load_models
         (Sample.files (Val (PyObject Sample.length_classifier))
                       (Raise (Exception "FileNotFoundError" vectorizer_file)))
         fresh) = Val (PyNone, PyNone) /\
  exists new,
    run_app
      (Sample.files (Val (PyObject Sample.length_classifier))
                    (Raise (Exception "FileNotFoundError" vectorizer_file)))
      {| news_text := Sample.vaccine; analyze_button := true |} fresh
    = (Val tt, {| history := None; trace := new |}) /\
    filter is_inference_call new = [] /\
    In (St_error ModelFilesNotFound) new.
Proof.
  apply (load_failure_disables_inference
           (Sample.files (Val (PyObject Sample.length_classifier))
                         (Raise (Exception "FileNotFoundError" vectorizer_file)))
           {| news_text := Sample.vaccine; analyze_button := true |} fresh).
  right. eexists. reflexivity.
Defined.

(** C6. If the transform step or a predict step raises on a submitted text,
    [predict_news] returns [None] without raising and shows the error; the
    script completes, no entry is appended and the buffer holds what it
    held before. *)
Theorem failed_inference_keeps_history
    (jl : disk) (inp : Input) (m v : Estimator) (e : exn) :
  loaded jl m v ->
  analyze_button inp = true ->
  strip (news_text inp) <> [] ->
  inference_step_raises m v (news_text inp) e ->
  (forall s, exists s',
      predict_news (news_text inp) (PyObject m) (PyObject v) s = (Val None, s') /\
      history s' = history s /\
      In (St_error (PredictionError e)) (trace s')) /\
  (forall s, exists new,
      run_app jl inp s
      = (Val tt, {| history := Some (stored s); trace := trace s ++ new |}) /\
      In (St_error (PredictionError e)) new).
Proof.
  intros Hl Hb Ht He. split; intros s.
  - destruct (predict_news_fails _ m v e s He) as [calls ->].
    eexists. split; [reflexivity|]. split; [reflexivity|].
    cbn [trace]. rewrite !in_app_iff. cbn. auto.
  - rewrite (run_app_loaded jl inp m v s Hl).
    unfold bind at 1. unfold bind at 1.
    rewrite (column1_submission inp _ _ _ Hb Ht).
    unfold bind at 1.
    destruct (predict_news_fails _ m v e
                {| history := Some (stored
                     {| history := history s;
                        trace := trace s ++ [St_page_config; St_style; St_header] |});
                   trace := trace
                     {| history := history s;
                        trace := trace s ++ [St_page_config; St_style; St_header] |}
                     ++ [St_text_area; St_button; St_spinner] |} He)
      as [calls ->].
    unfold ret. cbn [history trace stored]. rewrite column2_draws.
    unfold emit. cbn [history trace]. rewrite <- !app_assoc.
    eexists. split; [reflexivity|].
    cbn. rewrite !in_app_iff. cbn. auto 20.
Qed.

Lemma failed_inference_keeps_history_witness :
  (forall s, exists s',
      predict_news (lit " a ") (PyObject Sample.length_classifier)
        (PyObject Sample.broken_vectorizer) s = (Val None, s') /\
      history s' = history s /\
      In (St_error (PredictionError (Exception "ValueError" "vocabulary not fitted")))
         (trace s')) /\
  (forall s, exists new,
      run_app
        (Sample.files (Val (PyObject Sample.length_classifier))
                      (Val (PyObject Sample.broken_vectorizer)))
        {| news_text := lit " a "; analyze_button := true |} s
      = (Val tt, {| history := Some (stored s); trace := trace s ++ new |}) /\
      In (St_error (PredictionError (Exception "ValueError" "vocabulary not fitted")))
         new).
Proof.
  apply (failed_inference_keeps_history
           (Sample.files (Val (PyObject Sample.length_classifier))
                         (Val (PyObject Sample.broken_vectorizer)))
           {| news_text := lit " a "; analyze_button := true |}
           Sample.length_classifier Sample.broken_vectorizer
           (Exception "ValueError" "vocabulary not fitted")).
  - split; reflexivity.
  - reflexivity.
  - discriminate.
  - left. reflexivity.
Defined.

(** ** What a history entry holds *)

(** C10. A successful submission appends one entry: the text as the widget
    returned it, white space at its ends included, paired with the result of
    [predict_news] as it is.  The trimmed text is used for the blank check
    only. *)
Theorem entry_keeps_text_untrimmed
    (jl : disk) (inp : Input) (m v : Estimator) (s : state) (r : Prediction) :
  loaded jl m v ->
  analyze_button inp = true ->
  strip (news_text inp) <> [] ->
  fst (predict_news (news_text inp) (PyObject m) (PyObject v) s) = Val (Some r) ->
  stored (snd (run_app jl inp s))
  = stored s ++ [{| text := news_text inp; result := r |}].
Proof.
  intros Hl Hb Ht Hr.
  rewrite (run_app_loaded jl inp m v s Hl).
  unfold bind at 1. unfold bind at 1.
  rewrite (column1_submission inp _ _ _ Hb Ht).
  cbn [history trace stored].
  unfold bind at 1.
  match goal with
  | |- context [predict_news _ _ _ ?st] => set (s0 := st)
  end.
  pose proof (predict_news_value (news_text inp) (PyObject m) (PyObject v) s0 s) as Hv.
  rewrite Hr in Hv.
  pose proof (predict_news_history (news_text inp) (PyObject m) (PyObject v) s0) as Hh.
  destruct (predict_news (news_text inp) (PyObject m) (PyObject v) s0) as [o s1].
  cbn [fst snd] in Hv, Hh. subst o. cbn [history s0] in Hh.
  unfold bind at 1, history_append. rewrite Hh.
  unfold show_result, bind, emit, lift, getitem. cbn [history trace].
  destruct (nth_error (probabilities r) 0); [|reflexivity].
  destruct (nth_error (probabilities r) 1); [|reflexivity].
  cbn [history trace]. rewrite column2_draws. reflexivity.
Qed.

Lemma entry_keeps_text_untrimmed_witness :
  stored (snd (run_app Sample.good_files
                 {| news_text := lit "  Aliens built the pyramids ";
                    analyze_button := true |} fresh))
  = [{| text := lit "  Aliens built the pyramids "; result := Sample.fake_077 |}] /\
  strip (lit "  Aliens built the pyramids ") = Sample.pyramids.
Proof.
  split; [|reflexivity].
  apply (entry_keeps_text_untrimmed Sample.good_files
           {| news_text := lit "  Aliens built the pyramids ";
              analyze_button := true |}
           Sample.length_classifier Sample.length_vectorizer fresh
           Sample.fake_077).
  - split; reflexivity.
  - reflexivity.
  - discriminate.
  - reflexivity.
Defined.

(** ** A successful submission, end to end *)

(** One execution with a successful inference on a two-class row: the entry
    is appended and the page lists the five most recent entries of the new
    buffer, the submission itself first. *)
Lemma run_app_success
    (jl : disk) (inp : Input) (m v : Estimator) (s : state) (r : Prediction)
    (p0 p1 : Q) :
  loaded jl m v ->
  analyze_button inp = true ->
  strip (news_text inp) <> [] ->
  fst (predict_news (news_text inp) (PyObject m) (PyObject v) s) = Val (Some r) ->
  nth_error (probabilities r) 0 = Some p0 ->
  nth_error (probabilities r) 1 = Some p1 ->
  let h := stored s ++ [{| text := news_text inp; result := r |}] in
  exists s',
    run_app jl inp {| history := history s; trace := [] |} = (Val tt, s') /\
    history s' = Some h /\
    displayed s' = map expander (firstn 5 (rev h)) /\
    In (St_bar_chart p0 p1) (trace s').
Proof.
  intros Hl Hb Ht Hr H0 H1 h.
  rewrite (run_app_loaded jl inp m v _ Hl).
  unfold bind at 1. unfold bind at 1.
  rewrite (column1_submission inp _ _ _ Hb Ht).
  cbn [history trace stored app].
  unfold bind at 1.
  match goal with
  | |- context [predict_news _ _ _ ?st] => set (s0 := st)
  end.
  pose proof (predict_news_value (news_text inp) (PyObject m) (PyObject v) s0 s) as Hv.
  rewrite Hr in Hv.
  pose proof (predict_news_history (news_text inp) (PyObject m) (PyObject v) s0) as Hh.
  destruct (predict_news_Some (news_text inp) (PyObject m) (PyObject v) s0
              (snd (predict_news (news_text inp) (PyObject m) (PyObject v) s0)) r)
    as (_ & _ & x & _ & _ & _ & _ & _ & _ & _ & _ & _ & _ & _ & _ & Hs1).
  { rewrite <- Hv. apply surjective_pairing. }
  destruct (predict_news (news_text inp) (PyObject m) (PyObject v) s0) as [o s1].
  cbn [fst snd] in Hv, Hh, Hs1. subst o s1.
  unfold bind at 1, history_append. cbn [history trace after_inference s0].
  unfold show_result, bind, emit, lift, getitem. cbn [history trace].
  rewrite H0, H1. cbn [history trace]. rewrite column2_draws.
  eexists. split; [reflexivity|]. cbn [history trace].
  split; [reflexivity|]. split.
  - unfold displayed. cbn [trace]. rewrite !filter_app. cbn [filter is_expander app].
    rewrite app_nil_r. apply recent_checks_expanders.
  - rewrite !in_app_iff. cbn. auto 20.
Qed.

(** * Beyond the submission paths *)

(** ** The shape of every inference *)

Lemma predict_news_shape (t : str) (model vectorizer : pyobj) (s : state) :
  exists r calls errs,
    predict_news t model vectorizer s
    = (Val r, {| history := history s; trace := trace s ++ calls ++ errs |}) /\
    Forall (fun ev => is_inference_call ev = true) calls /\
    (exists tl, calls = Call_transform [t] :: tl) /\
    match r with
    | Some _ => errs = []
    | None => exists e, errs = [St_error (PredictionError e)]
    end.
Proof.
  cases; rewrite <- ?app_assoc; cbn [app].
  all: match goal with
       | |- exists r calls errs,
             (Val ?r0, {| history := _; trace := _ ++ ?l |}) = _ /\ _ =>
           lazymatch r0 with
           | None =>
               let c := eval cbn [removelast] in (removelast l) in
               exists None, c; eexists; split; [reflexivity|]
           | Some _ =>
               exists r0, l, []; split; [rewrite app_nil_r; reflexivity|]
           end
       end.
  all: repeat split; eauto; repeat constructor.
Qed.

Lemma calls_no_expander (l : list event) :
  Forall (fun ev => is_inference_call ev = true) l ->
  filter is_expander l = [].
Proof.
  induction 1 as [|ev l Hev _ IH]; [reflexivity|].
  cbn [filter]. destruct ev; try discriminate; exact IH.
Qed.

Lemma calls_no_warning (l : list event) :
  Forall (fun ev => is_inference_call ev = true) l ->
  ~ In St_warning l.
Proof.
  intros H Hin. rewrite Forall_forall in H. apply H in Hin. discriminate.
Qed.

(** ** The first column, case by case *)

Lemma column1_idle (inp : Input) (model vectorizer : pyobj) (s : state) :
  analyze_button inp = false ->
  column1 inp model vectorizer s
  = (Val tt, {| history := Some (stored s);
                trace := trace s ++ [St_text_area; St_button] |}).
Proof.
  intros Hb. unfold column1. rewrite Hb.
  unfold bind, emit, init_history, ret, stored. cbn [history trace].
  destruct (history s); rewrite <- !app_assoc; reflexivity.
Qed.

Lemma column1_blank (inp : Input) (model vectorizer : pyobj) (s : state) :
  analyze_button inp = true ->
  strip (news_text inp) = [] ->
  column1 inp model vectorizer s
  = (Val tt, {| history := Some (stored s);
                trace := trace s ++ [St_text_area; St_button; St_warning] |}).
Proof.
  intros Hb Ht. unfold column1. rewrite Hb, Ht. cbn [is_empty].
  unfold bind, emit, init_history, stored. cbn [history trace].
  destruct (history s); cbn [history trace]; rewrite <- !app_assoc; reflexivity.
Qed.

(** [show_result] draws the box, then needs both probabilities. *)
Lemma show_result_draws (r : Prediction) (s : state) :
  show_result r s
  = match nth_error (probabilities r) 0, nth_error (probabilities r) 1 with
    | Some p0, Some p1 =>
        (Val tt, {| history := history s;
                    trace := trace s ++ [result_box r; St_subheader;
                                         St_bar_chart p0 p1] |})
    | _, _ =>
        (Raise IndexError, {| history := history s;
                              trace := trace s ++ [result_box r] |})
    end.
Proof.
  unfold show_result, bind, emit, lift, getitem, result_box. cbn [history trace].
  destruct (nth_error (probabilities r) 0); [|reflexivity].
  destruct (nth_error (probabilities r) 1); [|reflexivity].
  cbn [history trace]. rewrite <- !app_assoc. reflexivity.
Qed.

(** The first column on a submission, by the outcome of the inference. *)
Lemma column1_submitted (inp : Input) (model vectorizer : pyobj) (s : state) :
  analyze_button inp = true ->
  strip (news_text inp) <> [] ->
  exists r calls errs,
    fst (predict_news (news_text inp) model vectorizer s) = Val r /\
    Forall (fun ev => is_inference_call ev = true) calls /\
    (exists tl, calls = Call_transform [news_text inp] :: tl) /\
    match r with
    | None =>
        (exists e, errs = [St_error (PredictionError e)]) /\
        column1 inp model vectorizer s
        = (Val tt,
           {| history := Some (stored s);
              trace := trace s ++ [St_text_area; St_button; St_spinner]
                               ++ calls ++ errs |})
    | Some res =>
        errs = [] /\
        column1 inp model vectorizer s
        = show_result res
            {| history := Some (stored s ++ [{| text := news_text inp;
                                               result := res |}]);
               trace := trace s ++ [St_text_area; St_button; St_spinner]
                                ++ calls |}
    end.
Proof.
  intros Hb Ht.
  set (s0 := {| history := Some (stored s);
                trace := trace s ++ [St_text_area; St_button; St_spinner] |}).
  destruct (predict_news_shape (news_text inp) model vectorizer s0)
    as (r & calls & errs & E & Hcalls & Htl & Herrs).
  exists r, calls, errs.
  rewrite (predict_news_value (news_text inp) model vectorizer s s0), E.
  cbn [fst].
  split; [reflexivity|]. split; [exact Hcalls|]. split; [exact Htl|].
  destruct r as [res|];
    rewrite (column1_submission inp _ _ _ Hb Ht); fold s0;
    unfold bind at 1; rewrite E.
  - subst errs. split; [reflexivity|].
    unfold bind at 1, history_append. cbn [history trace s0].
    rewrite app_nil_r, <- !app_assoc. reflexivity.
  - split; [exact Herrs|]. unfold ret. cbn [history trace s0].
    rewrite <- !app_assoc. reflexivity.
Qed.

(** ** One execution, from the outcome of the first column *)

Lemma run_app_columns
    (jl : disk) (inp : Input) (m v : Estimator) (s : state)
    (o : outcome unit) (h : list Item) (tr : list event) :
  loaded jl m v ->
  column1 inp (PyObject m) (PyObject v)
    {| history := history s; trace := trace s ++ page_top |}
  = (o, {| history := Some h; trace := tr |}) ->
  run_app jl inp s
  = match o with
    | Val _ =>
        (Val tt, {| history := Some h;
                    trace := tr ++ St_info_card :: recent_checks h ++ [St_footer] |})
    | Raise e => (Raise e, {| history := Some h; trace := tr |})
    end.
Proof.
  intros Hl Hc. rewrite (run_app_loaded jl inp m v s Hl).
  unfold bind at 1. unfold bind at 1. fold page_top. rewrite Hc.
  destruct o as [[]|e]; [|reflexivity].
  rewrite column2_draws. unfold emit. cbn [history trace].
  rewrite <- !app_assoc. reflexivity.
Qed.

(** Without both objects the script shows the load error and nothing else. *)
Lemma run_app_error_mode (jl : disk) (inp : Input) (s : state) :
  (forall m v, ~ loaded jl m v) ->
  exists errs,
    run_app jl inp s
    = (Val tt, {| history := history s;
                  trace := trace s ++ page_top ++ errs
                                   ++ [St_error ModelFilesNotFound; St_footer] |}) /\
    (errs = [] \/ exists e, errs = [St_error (LoadingError e)]).
Proof.
  intros Hn. unfold run_app, page_top.
  unfold bind at 1, emit at 1. unfold bind at 1, emit at 1.
  unfold bind at 1, emit at 1. unfold bind at 1.
  unfold load_models, try_except, bind, lift, ret, emit. cbn [history trace].
  destruct (jl model_file) as [om|e] eqn:Em.
  - destruct (jl vectorizer_file) as [ov|e] eqn:Ev.
    + destruct om as [|m]; [|destruct ov as [|v]];
        cbn [is_not_None andb history trace].
      * exists []. rewrite <- !app_assoc. auto.
      * exists []. rewrite <- !app_assoc. auto.
      * exfalso. apply (Hn m v). split; assumption.
    + cbn [is_not_None andb history trace].
      exists [St_error (LoadingError e)]. rewrite <- !app_assoc. eauto.
  - cbn [is_not_None andb history trace].
    exists [St_error (LoadingError e)]. rewrite <- !app_assoc. eauto.
Qed.

Lemma recent_checks_no_warning (h : list Item) :
  ~ In St_warning (recent_checks h).
Proof.
  destruct h as [|e h]; [intros []|].
  unfold recent_checks. intros [H|H]; [discriminate|].
  apply in_map_iff in H. destruct H as (it & H & _). discriminate.
Qed.

Lemma recent_checks_length (h : list Item) :
  (length (filter is_expander (recent_checks h)) <= 5)%nat.
Proof.
  rewrite recent_checks_expanders, length_map. apply firstn_le_length.
Qed.

(** The whole execution on a submission whose inference succeeds with both
    probabilities present. *)
Lemma run_app_submitted_ok
    (jl : disk) (inp : Input) (m v : Estimator) (s : state) (r : Prediction)
    (p0 p1 : Q) :
  loaded jl m v ->
  analyze_button inp = true ->
  strip (news_text inp) <> [] ->
  fst (predict_news (news_text inp) (PyObject m) (PyObject v) s) = Val (Some r) ->
  nth_error (probabilities r) 0 = Some p0 ->
  nth_error (probabilities r) 1 = Some p1 ->
  exists calls,
    Forall (fun ev => is_inference_call ev = true) calls /\
    run_app jl inp s
    = (Val tt,
       {| history := Some (stored s ++ [{| text := news_text inp; result := r |}]);
          trace := trace s ++ page_top
                     ++ [St_text_area; St_button; St_spinner] ++ calls
                     ++ [result_box r; St_subheader; St_bar_chart p0 p1]
                     ++ St_info_card
                        :: recent_checks
                             (stored s ++ [{| text := news_text inp; result := r |}])
                     ++ [St_footer] |}).
Proof.
  intros Hl Hb Ht Hr H0 H1.
  set (s0 := {| history := history s; trace := trace s ++ page_top |}).
  destruct (column1_submitted inp (PyObject m) (PyObject v) s0 Hb Ht)
    as (r' & calls & errs & Hr' & Hcalls & _ & Hcase).
  rewrite (predict_news_value _ _ _ s0 s), Hr in Hr'.
  injection Hr' as <-. destruct Hcase as [-> Hc].
  rewrite show_result_draws, H0, H1 in Hc. cbn [history trace s0 stored] in Hc.
  exists calls. split; [exact Hcalls|].
  rewrite (run_app_columns jl inp m v s _ _ _ Hl Hc).
  rewrite <- !app_assoc. reflexivity.
Qed.

(** Every execution keeps the entries of the buffer and appends at most
    one. *)
Lemma run_app_appends (jl : disk) (inp : Input) (s : state) :
  exists suffix,
    stored (snd (run_app jl inp s)) = stored s ++ suffix /\
    (length suffix <= 1)%nat.
Proof.
  destruct (jl model_file) as [[|m]|e] eqn:Em;
    [| destruct (jl vectorizer_file) as [[|v]|e] eqn:Ev |].
  1, 2, 4, 5:
    destruct (run_app_error_mode jl inp s) as (errs & -> & _);
    [ intros m' v' [H1 H2]; congruence
    | exists []; rewrite app_nil_r; split; [reflexivity | cbn; lia] ].
  assert (Hl : loaded jl m v) by (split; assumption).
  set (s0 := {| history := history s; trace := trace s ++ page_top |}).
  assert (Hs0 : stored s0 = stored s) by reflexivity.
  destruct (analyze_button inp) eqn:Hb.
  - destruct (strip (news_text inp)) as [|c l] eqn:Ht.
    + rewrite (run_app_columns jl inp m v s _ _ _ Hl
                 (column1_blank inp _ _ s0 Hb Ht)).
      exists []. rewrite app_nil_r. split; [reflexivity | cbn; lia].
    + destruct (column1_submitted inp (PyObject m) (PyObject v) s0 Hb)
        as (r & calls & errs & _ & _ & _ & Hcase);
        [rewrite Ht; discriminate|].
      destruct r as [res|].
      * destruct Hcase as [_ Hc]. rewrite show_result_draws in Hc.
        exists [{| text := news_text inp; result := res |}].
        split; [|cbn; lia].
        destruct (nth_error (probabilities res) 0);
          [destruct (nth_error (probabilities res) 1)|];
          rewrite (run_app_columns jl inp m v s _ _ _ Hl Hc); reflexivity.
      * destruct Hcase as [_ Hc].
        rewrite (run_app_columns jl inp m v s _ _ _ Hl Hc).
        exists []. rewrite app_nil_r. split; [reflexivity | cbn; lia].
  - rewrite (run_app_columns jl inp m v s _ _ _ Hl (column1_idle inp _ _ s0 Hb)).
    exists []. rewrite app_nil_r. split; [reflexivity | cbn; lia].
Qed.

(** What [load_models] returns when both files load. *)
Lemma load_models_both (jl : disk) (om ov : pyobj) (s : state) :
  jl model_file = Val om ->
  jl vectorizer_file = Val ov ->
  load_models jl s = (Val (om, ov), s).
Proof.
  intros Hm Hv. unfold_app. rewrite Hm, Hv. reflexivity.
Qed.

(** The first column on a submission whose three artifact calls answer. *)
Lemma column1_inferred
    (inp : Input) (m v : Estimator) (x : matrix) (idx : Z) (rest : list Z)
    (row : list Q) (more : list (list Q)) (c : Q) (s : state) :
  analyze_button inp = true ->
  strip (news_text inp) <> [] ->
  transform v [news_text inp] = Val x ->
  predict m x = Val (idx :: rest) ->
  predict_proba m x = Val (row :: more) ->
  nth_error row (if (idx =? 1)%Z then 1 else 0) = Some c ->
  column1 inp (PyObject m) (PyObject v) s
  = show_result (result_of idx row c)
      {| history := Some (stored s ++ [{| text := news_text inp;
                                         result := result_of idx row c |}]);
         trace := trace s ++ [St_text_area; St_button; St_spinner;
                              Call_transform [news_text inp]; Call_predict x;
                              Call_predict_proba x] |}.
Proof.
  intros Hb Ht Htr Hpr Hpp Hc.
  rewrite (column1_submission inp _ _ _ Hb Ht). unfold bind at 1.
  rewrite (predict_news_returns _ m v x idx rest row more c _ Htr Hpr Hpp Hc).
  unfold bind at 1, history_append, after_inference. cbn [history trace].
  rewrite <- !app_assoc. reflexivity.
Qed.

Lemma nth_error_0_1 {A : Type} (l : list A) :
  nth_error l 0 = None -> nth_error l 1 = None.
Proof. destruct l; [reflexivity | discriminate]. Qed.

Lemma stored_rerun_state (s : state) :
  stored {| history := history s; trace := [] |} = stored s.
Proof. reflexivity. Qed.

Lemma recent_checks_no_transform (h : list Item) (docs : list str) :
  ~ In (Call_transform docs) (recent_checks h).
Proof.
  destruct h as [|e h]; [intros []|].
  unfold recent_checks. intros [H|H]; [discriminate|].
  apply in_map_iff in H. destruct H as (it & H & _). discriminate.
Qed.

(** The first column draws no entry of the recent checks and always leaves
    the buffer in place. *)
Lemma column1_shape (inp : Input) (model vectorizer : pyobj) (s : state) :
  exists o h new,
    column1 inp model vectorizer s
    = (o, {| history := Some h; trace := trace s ++ new |}) /\
    filter is_expander new = [].
Proof.
  destruct (analyze_button inp) eqn:Hb.
  - destruct (strip (news_text inp)) as [|c l] eqn:Ht.
    + rewrite (column1_blank inp _ _ s Hb Ht). eauto.
    + destruct (column1_submitted inp model vectorizer s Hb)
        as (r & calls & errs & _ & Hcalls & _ & Hcase);
        [rewrite Ht; discriminate|].
      apply calls_no_expander in Hcalls.
      destruct r as [res|].
      * destruct Hcase as [_ ->]. rewrite show_result_draws.
        destruct (nth_error (probabilities res) 0);
          [destruct (nth_error (probabilities res) 1)|];
          cbn [history trace]; rewrite <- !app_assoc;
          do 3 eexists; (split; [reflexivity|]);
          rewrite !filter_app, Hcalls; reflexivity.
      * destruct Hcase as [[e ->] ->].
        do 3 eexists. split; [reflexivity|].
        rewrite !filter_app, Hcalls. reflexivity.
  - rewrite (column1_idle inp _ _ s Hb). eauto.
Qed.

(** An event is in none of the parts of the trace. *)
Ltac absent :=
  let H := fresh in
  intros H; exfalso; revert H;
  unfold result_box, page_top;
  repeat (rewrite in_app_iff || cbn [In]);
  repeat match goal with
         | |- context [In St_warning (recent_checks ?h)] =>
             generalize (recent_checks_no_warning h);
             generalize (In St_warning (recent_checks h)); intros ? ?
         | |- context [In (Call_transform ?d) (recent_checks ?h)] =>
             generalize (recent_checks_no_transform h d);
             generalize (In (Call_transform d) (recent_checks h)); intros ? ?
         end;
  intuition congruence.

(** * Further properties of the script *)

(** ** [predict_news] as an error boundary *)

(** X1. Whatever the two objects are and whatever their methods do,
    [predict_news] completes without raising and leaves the session state
    alone.  It adds calls of artifact methods to the trace and then either
    returns a result and shows no error, or returns [None] and shows exactly
    one prediction error. *)
Theorem predict_news_contains_every_failure
    (t : str) (model vectorizer : pyobj) (s : state) :
  exists r calls errs,
    predict_news t model vectorizer s
    = (Val r, {| history := history s; trace := trace s ++ calls ++ errs |}) /\
    Forall (fun ev => is_inference_call ev = true) calls /\
    (r <> None <-> errs = []) /\
    (r = None <-> exists e, errs = [St_error (PredictionError e)]).
Proof.
  destruct (predict_news_shape t model vectorizer s)
    as (r & calls & errs & E & Hcalls & _ & Herrs).
  exists r, calls, errs. split; [exact E|]. split; [exact Hcalls|].
  destruct r as [res|].
  - subst errs. repeat split; try discriminate; auto.
    intros [e He]. discriminate.
  - destruct Herrs as [e ->]. repeat split; try discriminate; eauto.
    intros H. contradiction.
Qed.

(** X2. A successful inference calls [transform] once, on the list of the
    one submitted text, and then [predict] and [predict_proba] once each on
    the matrix [transform] returned, in this order; the probabilities of the
    result are the first row [predict_proba] answered, and the session state
    is as before. *)
Theorem successful_inference_calls
    (t : str) (m v : Estimator) (s s' : state) (r : Prediction) :
  predict_news t (PyObject m) (PyObject v) s = (Val (Some r), s') ->
  exists x more,
    transform v [t] = Val x /\
    predict_proba m x = Val (probabilities r :: more) /\
    history s' = history s /\
    trace s' = trace s ++ [Call_transform [t]; Call_predict x; Call_predict_proba x].
Proof.
  intros H. apply predict_news_Some in H.
  destruct H as (m' & v' & x & idx & rest & row & more & c
                 & Em & Ev & Htr & _ & Hpp & _ & -> & ->).
  injection Em as <-. injection Ev as <-.
  exists x, more. repeat split; assumption.
Qed.

Lemma successful_inference_calls_witness :
  exists x more,
    transform Sample.length_vectorizer [Sample.pyramids] = Val x /\
    predict_proba Sample.length_classifier x
    = Val (probabilities Sample.fake_077 :: more) /\
    history (after_inference Sample.pyramids [[25]] fresh) = history fresh /\
    trace (after_inference Sample.pyramids [[25]] fresh)
    = trace fresh ++ [Call_transform [Sample.pyramids]; Call_predict x;
                      Call_predict_proba x].
Proof.
  apply (successful_inference_calls Sample.pyramids Sample.length_classifier
           Sample.length_vectorizer fresh
           (after_inference Sample.pyramids [[25]] fresh) Sample.fake_077).
  reflexivity.
Defined.

(** X3. If [predict] answers with an empty array, the subscript [[0]]
    fails inside [predict_news]: it returns [None], shows the [IndexError] as
    a prediction error and never calls [predict_proba]. *)
Theorem empty_prediction_array_is_an_error
    (t : str) (m v : Estimator) (x : matrix) (s : state) :
  transform v [t] = Val x ->
  predict m x = Val [] ->
  predict_news t (PyObject m) (PyObject v) s
  = (Val None,
     {| history := history s;
        trace := trace s ++ [Call_transform [t]; Call_predict x;
                             St_error (PredictionError IndexError)] |}).
Proof.
  intros Htr Hpr. unfold_app. cbn [fst snd history trace].
  rewrite Htr. cbn [history trace]. rewrite Hpr. cbn [nth_error history trace].
  rewrite <- !app_assoc. reflexivity.
Qed.

Lemma empty_prediction_array_is_an_error_witness :
  predict_news Sample.vaccine (PyObject Edge.silent_classifier)
    (PyObject Sample.length_vectorizer) fresh
  = (Val None,
     {| history := None;
        trace := [Call_transform [Sample.vaccine]; Call_predict [[33]];
                  St_error (PredictionError IndexError)] |}).
Proof.
  apply (empty_prediction_array_is_an_error Sample.vaccine
           Edge.silent_classifier Sample.length_vectorizer [[33]] fresh);
    reflexivity.
Defined.

(** X4. If [predict_proba] answers with no row, or with a first row that
    has no entry at the index the confidence is read from (1 when the
    predicted index is 1, else 0), [predict_news] returns [None] and shows
    the [IndexError] as a prediction error, after all three calls. *)
Theorem missing_probability_is_an_error
    (t : str) (m v : Estimator) (x : matrix) (idx : Z) (rest : list Z)
    (rows : list (list Q)) (s : state) :
  transform v [t] = Val x ->
  predict m x = Val (idx :: rest) ->
  predict_proba m x = Val rows ->
  (rows = [] \/
   exists row more, rows = row :: more /\
     nth_error row (if (idx =? 1)%Z then 1 else 0) = None) ->
  predict_news t (PyObject m) (PyObject v) s
  = (Val None,
     {| history := history s;
        trace := trace s ++ [Call_transform [t]; Call_predict x;
                             Call_predict_proba x;
                             St_error (PredictionError IndexError)] |}).
Proof.
  intros Htr Hpr Hpp Hrows. unfold_app. cbn [fst snd history trace].
  rewrite Htr. cbn [history trace]. rewrite Hpr. cbn [nth_error history trace].
  rewrite Hpp.
  destruct Hrows as [->|(row & more & -> & Hnone)].
  - cbn [nth_error history trace]. rewrite <- !app_assoc. reflexivity.
  - destruct (idx =? 1)%Z; destruct row as [|p0 [|p1 row]]; try discriminate;
      cbn [nth_error history trace]; rewrite <- !app_assoc; reflexivity.
Qed.

Lemma missing_probability_is_an_error_witness :
  predict_news Sample.vaccine (PyObject (Sample.constant_classifier 1 [1%Q]))
    (PyObject Sample.length_vectorizer) fresh
  = (Val None,
     {| history := None;
        trace := [Call_transform [Sample.vaccine]; Call_predict [[33]];
                  Call_predict_proba [[33]];
                  St_error (PredictionError IndexError)] |}).
Proof.
  apply (missing_probability_is_an_error Sample.vaccine
           (Sample.constant_classifier 1 [1%Q]) Sample.length_vectorizer
           [[33]] 1 [] [[1%Q]] fresh); try reflexivity.
  right. exists [1%Q], []. split; reflexivity.
Defined.

(** X5. Called with [None] for the vectorizer or for the model,
    [predict_news] returns [None] and shows a prediction error; with [None]
    for the vectorizer that error is the [AttributeError] of [transform], and
    no method of the model is called. *)
Theorem predict_news_on_None
    (t : str) (model vectorizer : pyobj) (s : state) :
  model = PyNone \/ vectorizer = PyNone ->
  exists s',
    predict_news t model vectorizer s = (Val None, s') /\
    history s' = history s /\
    (vectorizer = PyNone ->
     trace s' = trace s ++ [Call_transform [t];
                            St_error (PredictionError (AttributeError "transform"))]).
Proof.
  intros H.
  destruct vectorizer as [|v].
  - eexists. split; [|split; [|intros _]].
    + unfold_app. cbn [fst snd history trace]. reflexivity.
    + reflexivity.
    + cbn [trace]. rewrite <- !app_assoc. reflexivity.
  - destruct H as [->|H]; [|discriminate].
    destruct (predict_news_shape t PyNone (PyObject v) s)
      as (r & calls & errs & E & _ & _ & _).
    destruct r as [res|].
    + apply predict_news_Some in E.
      destruct E as (m' & _ & _ & _ & _ & _ & _ & _ & Em & _). discriminate.
    + eexists. split; [exact E|]. split; [reflexivity|]. discriminate.
Qed.

Lemma predict_news_on_None_witness :
  exists s',
    predict_news Sample.vaccine (PyObject Sample.length_classifier) PyNone fresh
    = (Val None, s') /\
    history s' = history fresh /\
    (PyNone = PyNone ->
     trace s' = trace fresh
                ++ [Call_transform [Sample.vaccine];
                    St_error (PredictionError (AttributeError "transform"))]).
Proof.
  apply (predict_news_on_None Sample.vaccine
           (PyObject Sample.length_classifier) PyNone fresh).
  right. reflexivity.
Defined.

(** ** The loader and the error mode *)

(** X6. [load_models] never raises and leaves the session alone.  Either
    both files load, and it returns the two objects as they were read and
    shows nothing; or a load raises, and it returns [(None, None)] and shows
    that one exception: the one of the model file if that file fails, else
    the one of the vectorizer file, the loaded model being dropped. *)
Theorem load_models_outcome (jl : disk) (s : state) :
  exists r errs,
    load_models jl s
    = (Val r, {| history := history s; trace := trace s ++ errs |}) /\
    ((errs = [] /\
      jl model_file = Val (fst r) /\ jl vectorizer_file = Val (snd r)) \/
     (exists e,
         errs = [St_error (LoadingError e)] /\
         r = (PyNone, PyNone) /\
         (jl model_file = Raise e \/
          (exists om, jl model_file = Val om) /\ jl vectorizer_file = Raise e))).
Proof.
  unfold_app.
  destruct (jl model_file) as [om|e] eqn:Em.
  - destruct (jl vectorizer_file) as [ov|e] eqn:Ev.
    + exists (om, ov), []. rewrite app_nil_r. destruct s. cbn. auto.
    + exists (PyNone, PyNone), [St_error (LoadingError e)].
      split; [reflexivity|]. right. exists e. eauto 6.
  - exists (PyNone, PyNone), [St_error (LoadingError e)].
    split; [reflexivity|]. right. exists e. auto.
Qed.

(** X7. A file that loads as [None] raises nothing in [load_models], yet
    the guard of the script rejects it: the page shows the load-error message
    alone, without a loading error before it, no widget is drawn, no
    artifact method is called and the session state is as before. *)
Theorem None_artifact_is_load_error
    (jl : disk) (inp : Input) (om ov : pyobj) (s : state) :
  jl model_file = Val om ->
  jl vectorizer_file = Val ov ->
  om = PyNone \/ ov = PyNone ->
  run_app jl inp s
  = (Val tt,
     {| history := history s;
        trace := trace s ++ [St_page_config; St_style; St_header;
                             St_error ModelFilesNotFound; St_footer] |}).
Proof.
  intros Hm Hv Hnone.
  unfold run_app. unfold bind at 1, emit at 1.
  unfold bind at 1, emit at 1. unfold bind at 1, emit at 1.
  unfold bind at 1.
  rewrite (load_models_both jl om ov _ Hm Hv).
  assert (Hg : is_not_None om && is_not_None ov = false).
  { destruct Hnone as [->| ->]; [reflexivity|]. apply andb_false_r. }
  rewrite Hg. unfold bind, emit. cbn [history trace].
  rewrite <- !app_assoc. reflexivity.
Qed.

Lemma None_artifact_is_load_error_witness :
  run_app (Sample.files (Val (PyObject Sample.length_classifier)) (Val PyNone))
    (Edge.pressed Sample.vaccine) fresh
  = (Val tt,
     {| history := None;
        trace := [St_page_config; St_style; St_header;
                  St_error ModelFilesNotFound; St_footer] |}).
Proof.
  apply (None_artifact_is_load_error
           (Sample.files (Val (PyObject Sample.length_classifier)) (Val PyNone))
           (Edge.pressed Sample.vaccine)
           (PyObject Sample.length_classifier) PyNone fresh).
  - reflexivity.
  - reflexivity.
  - right. reflexivity.
Defined.

(** ** Executions with the artifacts loaded *)

(** X8. While the button is not pressed the script runs no inference,
    whatever text the field holds: it draws the widgets, the information
    card and the recent checks of the buffer as it is, shows no warning and
    no error, and leaves the entries of the buffer unchanged. *)
Theorem idle_run_draws_history_only
    (jl : disk) (inp : Input) (m v : Estimator) (s : state) :
  loaded jl m v ->
  analyze_button inp = false ->
  run_app jl inp s
  = (Val tt,
     {| history := Some (stored s);
        trace := trace s ++ [St_page_config; St_style; St_header;
                             St_text_area; St_button; St_info_card]
                         ++ recent_checks (stored s) ++ [St_footer] |}).
Proof.
  intros Hl Hb.
  rewrite (run_app_columns jl inp m v s _ _ _ Hl
             (column1_idle inp _ _ _ Hb)).
  cbn [history trace stored page_top]. rewrite <- !app_assoc. reflexivity.
Qed.

Lemma idle_run_draws_history_only_witness :
  run_app Sample.good_files (Edge.idle Sample.vaccine) fresh
  = (Val tt,
     {| history := Some [];
        trace := [St_page_config; St_style; St_header;
                  St_text_area; St_button; St_info_card; St_footer] |}).
Proof.
  apply (idle_run_draws_history_only Sample.good_files
           (Edge.idle Sample.vaccine)
           Sample.length_classifier Sample.length_vectorizer fresh).
  - split; reflexivity.
  - reflexivity.
Defined.

(** X9. The entries of the buffer change in one way only: if an execution
    leaves other entries than it found, then the button was pressed, the
    text was not blank, both artifacts were loaded, the inference returned a
    result, and the change is that one entry appended. *)
Theorem history_changes_only_by_successful_inference
    (jl : disk) (inp : Input) (s : state) :
  stored (snd (run_app jl inp s)) <> stored s ->
  analyze_button inp = true /\
  strip (news_text inp) <> [] /\
  exists m v r,
    loaded jl m v /\
    fst (predict_news (news_text inp) (PyObject m) (PyObject v) s) = Val (Some r) /\
    stored (snd (run_app jl inp s))
    = stored s ++ [{| text := news_text inp; result := r |}].
Proof.
  intros Hne.
  destruct (jl model_file) as [[|m]|e] eqn:Em;
    [| destruct (jl vectorizer_file) as [[|v]|e] eqn:Ev |].
  1, 2, 4, 5:
    exfalso; apply Hne;
    destruct (run_app_error_mode jl inp s) as (errs & -> & _);
    [ intros m' v' [H1 H2]; congruence | reflexivity ].
  assert (Hl : loaded jl m v) by (split; assumption).
  set (s0 := {| history := history s; trace := trace s ++ page_top |}).
  destruct (analyze_button inp) eqn:Hb.
  - destruct (strip (news_text inp)) as [|c l] eqn:Ht.
    + exfalso. apply Hne.
      rewrite (run_app_columns jl inp m v s _ _ _ Hl
                 (column1_blank inp _ _ s0 Hb Ht)).
      reflexivity.
    + assert (Ht' : strip (news_text inp) <> []) by (rewrite Ht; discriminate).
      rewrite <- Ht.
      destruct (column1_submitted inp (PyObject m) (PyObject v) s0 Hb Ht')
        as (r & calls & errs & Hr & _ & _ & Hcase).
      rewrite (predict_news_value _ _ _ s0 s) in Hr.
      destruct r as [res|].
      * destruct Hcase as [_ Hc]. rewrite show_result_draws in Hc.
        split; [reflexivity|]. split; [exact Ht'|].
        exists m, v, res. split; [exact Hl|]. split; [exact Hr|].
        destruct (nth_error (probabilities res) 0);
          [destruct (nth_error (probabilities res) 1)|];
          rewrite (run_app_columns jl inp m v s _ _ _ Hl Hc); reflexivity.
      * exfalso. apply Hne. destruct Hcase as [_ Hc].
        rewrite (run_app_columns jl inp m v s _ _ _ Hl Hc). reflexivity.
  - exfalso. apply Hne.
    rewrite (run_app_columns jl inp m v s _ _ _ Hl (column1_idle inp _ _ s0 Hb)).
    reflexivity.
Qed.

Lemma history_changes_only_by_successful_inference_witness :
  analyze_button (Edge.pressed Sample.pyramids) = true /\
  strip (news_text (Edge.pressed Sample.pyramids)) <> [] /\
  exists m v r,
    loaded Sample.good_files m v /\
    fst (predict_news (news_text (Edge.pressed Sample.pyramids))
           (PyObject m) (PyObject v) fresh) = Val (Some r) /\
    stored (snd (run_app Sample.good_files (Edge.pressed Sample.pyramids) fresh))
    = stored fresh ++ [{| text := news_text (Edge.pressed Sample.pyramids);
                          result := r |}].
Proof.
  apply (history_changes_only_by_successful_inference Sample.good_files
           (Edge.pressed Sample.pyramids) fresh).
  vm_compute. discriminate.
Defined.

(** X10. With a classifier that answers one probability only (fitted on a
    single class) and an index other than 1, the inference succeeds and the
    entry is appended; the chart then reads the missing second probability
    and the script stops with an uncaught [IndexError] right after the result
    box: the chart, the information card, the recent checks and the footer
    are not drawn. *)
Theorem one_probability_stops_the_script
    (jl : disk) (inp : Input) (m v : Estimator) (x : matrix) (idx : Z)
    (rest : list Z) (p0 : Q) (more : list (list Q)) (s : state) :
  loaded jl m v ->
  analyze_button inp = true ->
  strip (news_text inp) <> [] ->
  transform v [news_text inp] = Val x ->
  predict m x = Val (idx :: rest) ->
  idx <> 1%Z ->
  predict_proba m x = Val ([p0] :: more) ->
  run_app jl inp s
  = (Raise IndexError,
     {| history :=
          Some (stored s
                ++ [{| text := news_text inp;
                       result := {| prediction := "FAKE"; confidence := p0;
                                    probabilities := [p0] |} |}]);
        trace := trace s ++ [St_page_config; St_style; St_header;
                             St_text_area; St_button; St_spinner;
                             Call_transform [news_text inp]; Call_predict x;
                             Call_predict_proba x;
                             St_result_box "fake-box" "FAKE" p0] |}).
Proof.
  intros Hl Hb Ht Htr Hpr Hne Hpp.
  apply Z.eqb_neq in Hne.
  assert (Hc : nth_error [p0] (if (idx =? 1)%Z then 1 else 0) = Some p0)
    by (rewrite Hne; reflexivity).
  pose proof (column1_inferred inp m v x idx rest [p0] more p0
                {| history := history s; trace := trace s ++ page_top |}
                Hb Ht Htr Hpr Hpp Hc) as H1.
  rewrite show_result_draws in H1. unfold result_of in H1. rewrite Hne in H1.
  cbn [probabilities nth_error history trace stored] in H1.
  rewrite (run_app_columns jl inp m v s _ _ _ Hl H1).
  unfold page_top. rewrite <- !app_assoc. reflexivity.
Qed.

Lemma one_probability_stops_the_script_witness :
  run_app
    (Sample.files (Val (PyObject Edge.one_class_classifier))
                  (Val (PyObject Sample.length_vectorizer)))
    (Edge.pressed Sample.vaccine) fresh
  = (Raise IndexError,
     {| history :=
          Some [{| text := Sample.vaccine;
                   result := {| prediction := "FAKE"; confidence := 1;
                                probabilities := [1%Q] |} |}];
        trace := [St_page_config; St_style; St_header;
                  St_text_area; St_button; St_spinner;
                  Call_transform [Sample.vaccine]; Call_predict [[33]];
                  Call_predict_proba [[33]];
                  St_result_box "fake-box" "FAKE" 1] |}).
Proof.
  apply (one_probability_stops_the_script
           (Sample.files (Val (PyObject Edge.one_class_classifier))
                         (Val (PyObject Sample.length_vectorizer)))
           (Edge.pressed Sample.vaccine)
           Edge.one_class_classifier Sample.length_vectorizer
           [[33]] 0 [] 1 [] fresh); try reflexivity.
  - split; reflexivity.
  - discriminate.
  - discriminate.
Defined.

(** X11. A submission on which the three artifact calls answer, with at
    least two probabilities in the first row, completes.  The entry appended
    holds the label of the index and, as confidence, the second probability
    for index 1 and the first one otherwise; the box is the real box exactly
    for index 1; the chart shows the first probability as Fake and the second
    as Real; the recent checks then list the buffer with the new entry. *)
Theorem successful_submission_page
    (jl : disk) (inp : Input) (m v : Estimator) (x : matrix) (idx : Z)
    (rest : list Z) (p0 p1 : Q) (ps : list Q) (more : list (list Q))
    (s : state) :
  loaded jl m v ->
  analyze_button inp = true ->
  strip (news_text inp) <> [] ->
  transform v [news_text inp] = Val x ->
  predict m x = Val (idx :: rest) ->
  predict_proba m x = Val ((p0 :: p1 :: ps) :: more) ->
  let real := (idx =? 1)%Z in
  let entry :=
    {| text := news_text inp;
       result := {| prediction := if real then "REAL" else "FAKE";
                    confidence := if real then p1 else p0;
                    probabilities := p0 :: p1 :: ps |} |} in
  run_app jl inp s
  = (Val tt,
     {| history := Some (stored s ++ [entry]);
        trace := trace s
                 ++ [St_page_config; St_style; St_header;
                     St_text_area; St_button; St_spinner;
                     Call_transform [news_text inp]; Call_predict x;
                     Call_predict_proba x;
                     St_result_box (if real then "real-box" else "fake-box")
                                   (if real then "REAL" else "FAKE")
                                   (if real then p1 else p0);
                     St_subheader; St_bar_chart p0 p1; St_info_card]
                 ++ recent_checks (stored s ++ [entry]) ++ [St_footer] |}).
Proof.
  intros Hl Hb Ht Htr Hpr Hpp real entry.
  assert (Hc : nth_error (p0 :: p1 :: ps) (if (idx =? 1)%Z then 1 else 0)
               = Some (if real then p1 else p0))
    by (unfold real; destruct (idx =? 1)%Z; reflexivity).
  pose proof (column1_inferred inp m v x idx rest (p0 :: p1 :: ps) more _
                {| history := history s; trace := trace s ++ page_top |}
                Hb Ht Htr Hpr Hpp Hc) as H1.
  rewrite show_result_draws in H1.
  cbn [result_of probabilities nth_error history trace stored] in H1.
  rewrite (run_app_columns jl inp m v s _ _ _ Hl H1).
  unfold page_top, result_box, entry, result_of, real.
  cbn [prediction confidence].
  destruct (idx =? 1)%Z; cbn [String.eqb]; rewrite <- !app_assoc; reflexivity.
Qed.

Lemma successful_submission_page_witness :
  run_app Sample.good_files (Edge.pressed Sample.vaccine) fresh
  = (Val tt,
     {| history := Some [{| text := Sample.vaccine; result := Sample.real_092 |}];
        trace := [St_page_config; St_style; St_header;
                  St_text_area; St_button; St_spinner;
                  Call_transform [Sample.vaccine]; Call_predict [[33]];
                  Call_predict_proba [[33]];
                  St_result_box "real-box" "REAL" 0.92;
                  St_subheader; St_bar_chart 0.08 0.92; St_info_card]
                 ++ recent_checks
                      [{| text := Sample.vaccine; result := Sample.real_092 |}]
                 ++ [St_footer] |}).
Proof.
  apply (successful_submission_page Sample.good_files
           (Edge.pressed Sample.vaccine)
           Sample.length_classifier Sample.length_vectorizer
           [[33]] 1 [] 0.08 0.92 [] [] fresh); try reflexivity.
  - split; reflexivity.
  - discriminate.
Defined.

(** X12. The only exception an execution lets through is the [IndexError]
    of the chart: if the script raises, both artifacts were loaded, the
    button was pressed, the inference returned a result, and that result has
    no second probability. *)
Theorem only_the_chart_raises
    (jl : disk) (inp : Input) (s : state) (e : exn) :
  fst (run_app jl inp s) = Raise e ->
  e = IndexError /\
  analyze_button inp = true /\
  exists m v r,
    loaded jl m v /\
    fst (predict_news (news_text inp) (PyObject m) (PyObject v) s) = Val (Some r) /\
    nth_error (probabilities r) 1 = None.
Proof.
  intros Hraise.
  destruct (jl model_file) as [[|m]|e'] eqn:Em;
    [| destruct (jl vectorizer_file) as [[|v]|e'] eqn:Ev |].
  1, 2, 4, 5:
    exfalso; revert Hraise;
    destruct (run_app_error_mode jl inp s) as (errs & -> & _);
    [ intros m' v' [H1 H2]; congruence | discriminate ].
  assert (Hl : loaded jl m v) by (split; assumption).
  set (s0 := {| history := history s; trace := trace s ++ page_top |}).
  destruct (analyze_button inp) eqn:Hb.
  - destruct (strip (news_text inp)) as [|c l] eqn:Ht.
    + exfalso. revert Hraise.
      rewrite (run_app_columns jl inp m v s _ _ _ Hl
                 (column1_blank inp _ _ s0 Hb Ht)).
      discriminate.
    + assert (Ht' : strip (news_text inp) <> []) by (rewrite Ht; discriminate).
      destruct (column1_submitted inp (PyObject m) (PyObject v) s0 Hb Ht')
        as (r & calls & errs & Hr & _ & _ & Hcase).
      rewrite (predict_news_value _ _ _ s0 s) in Hr.
      destruct r as [res|].
      * destruct Hcase as [_ Hc]. rewrite show_result_draws in Hc.
        destruct (nth_error (probabilities res) 0) eqn:H0;
          [destruct (nth_error (probabilities res) 1) eqn:H1|];
          rewrite (run_app_columns jl inp m v s _ _ _ Hl Hc) in Hraise;
          try discriminate; injection Hraise as <-;
          (split; [reflexivity|]); (split; [reflexivity|]);
          exists m, v, res; repeat split; auto using nth_error_0_1.
      * exfalso. revert Hraise. destruct Hcase as [_ Hc].
        rewrite (run_app_columns jl inp m v s _ _ _ Hl Hc). discriminate.
  - exfalso. revert Hraise.
    rewrite (run_app_columns jl inp m v s _ _ _ Hl (column1_idle inp _ _ s0 Hb)).
    discriminate.
Qed.

Lemma only_the_chart_raises_witness :
  IndexError = IndexError /\
  analyze_button (Edge.pressed Sample.vaccine) = true /\
  exists m v r,
    loaded (Sample.files (Val (PyObject Edge.one_class_classifier))
                         (Val (PyObject Sample.length_vectorizer))) m v /\
    fst (predict_news (news_text (Edge.pressed Sample.vaccine))
           (PyObject m) (PyObject v) fresh) = Val (Some r) /\
    nth_error (probabilities r) 1 = None.
Proof.
  apply (only_the_chart_raises
           (Sample.files (Val (PyObject Edge.one_class_classifier))
                         (Val (PyObject Sample.length_vectorizer)))
           (Edge.pressed Sample.vaccine) fresh IndexError).
  reflexivity.
Defined.

(** ** Sessions *)

(** X13. Over any sequence of executions, whatever the inputs and whatever
    the files hold, the buffer only grows at its end: the entries it held
    stay in place, and at most one entry per execution is appended. *)
Theorem session_only_appends (jl : disk) (inputs : list Input) (s : state) :
  exists suffix,
    stored (session jl inputs s) = stored s ++ suffix /\
    (length suffix <= length inputs)%nat.
Proof.
  unfold session. revert s.
  induction inputs as [|inp inputs IH]; intros s; cbn [fold_left].
  - exists []. rewrite app_nil_r. split; [reflexivity | cbn; lia].
  - destruct (IH (rerun jl s inp)) as (suffix & -> & Hlen).
    unfold rerun at 1.
    destruct (run_app_appends jl inp {| history := history s; trace := [] |})
      as (one & -> & Hone).
    rewrite stored_rerun_state, <- app_assoc.
    exists (one ++ suffix). split; [reflexivity|].
    rewrite length_app. cbn [length]. lia.
Qed.

(** X14. The same text submitted [k] times in a row, each inference
    succeeding with both probabilities, leaves [k] equal entries at the end
    of the buffer: nothing is merged or skipped. *)
Theorem repeated_submissions_are_all_kept
    (jl : disk) (inp : Input) (m v : Estimator) (r : Prediction) (p0 p1 : Q)
    (k : nat) (s : state) :
  loaded jl m v ->
  analyze_button inp = true ->
  strip (news_text inp) <> [] ->
  fst (predict_news (news_text inp) (PyObject m) (PyObject v) s) = Val (Some r) ->
  nth_error (probabilities r) 0 = Some p0 ->
  nth_error (probabilities r) 1 = Some p1 ->
  stored (session jl (repeat inp k) s)
  = stored s ++ repeat {| text := news_text inp; result := r |} k.
Proof.
  intros Hl Hb Ht Hr H0 H1. unfold session. revert s Hr.
  induction k as [|k IH]; intros s Hr; cbn [repeat fold_left].
  - rewrite app_nil_r. reflexivity.
  - rewrite IH.
    + unfold rerun.
      destruct (run_app_submitted_ok jl inp m v
                  {| history := history s; trace := [] |} r p0 p1 Hl Hb Ht)
        as (calls & _ & ->); auto.
      * rewrite (predict_news_value _ _ _ _ s). exact Hr.
      * cbn [snd stored history]. fold (stored s).
        rewrite <- app_assoc. reflexivity.
    + rewrite (predict_news_value _ _ _ _ s). exact Hr.
Qed.

Lemma repeated_submissions_are_all_kept_witness :
  stored (session Sample.good_files (repeat (Edge.pressed Sample.pyramids) 7) fresh)
  = stored fresh
    ++ repeat {| text := news_text (Edge.pressed Sample.pyramids);
                 result := Sample.fake_077 |} 7.
Proof.
  apply (repeated_submissions_are_all_kept Sample.good_files
           (Edge.pressed Sample.pyramids)
           Sample.length_classifier Sample.length_vectorizer
           Sample.fake_077 0.77 0.23 7 fresh); try reflexivity.
  - split; reflexivity.
  - discriminate.
Defined.

(** ** What a completed page shows *)

(** X15. Whenever the script completes with the artifacts loaded, be it
    without a submission, on blank text, on a failed or on a successful
    inference, the recent checks it has drawn are the five most recent
    entries of the buffer as that execution leaves it, the newest first, and
    never more than five. *)
Theorem completed_page_lists_five_most_recent
    (jl : disk) (inp : Input) (m v : Estimator) (h0 : option (list Item))
    (s' : state) :
  loaded jl m v ->
  run_app jl inp {| history := h0; trace := [] |} = (Val tt, s') ->
  displayed s' = map expander (firstn 5 (rev (stored s'))) /\
  (length (displayed s') <= 5)%nat.
Proof.
  intros Hl Hrun.
  destruct (column1_shape inp (PyObject m) (PyObject v)
              {| history := h0; trace := [] ++ page_top |})
    as (o & h & new & Hc & Hnew).
  rewrite (run_app_columns jl inp m v {| history := h0; trace := [] |}
             o h _ Hl Hc) in Hrun.
  destruct o as [[]|e]; [|discriminate].
  injection Hrun as <-.
  unfold displayed.
  cbn [trace history stored app page_top filter is_expander].
  rewrite filter_app, Hnew. cbn [filter is_expander app].
  rewrite filter_app. cbn [filter is_expander]. rewrite app_nil_r.
  split.
  - apply recent_checks_expanders.
  - apply recent_checks_length.
Qed.

Lemma completed_page_lists_five_most_recent_witness :
  displayed (snd (run_app Sample.good_files (Edge.pressed Sample.pyramids)
                    {| history := None; trace := [] |}))
  = map expander
      (firstn 5 (rev (stored (snd (run_app Sample.good_files
                                     (Edge.pressed Sample.pyramids)
                                     {| history := None; trace := [] |}))))) /\
  (length (displayed (snd (run_app Sample.good_files
                             (Edge.pressed Sample.pyramids)
                             {| history := None; trace := [] |}))) <= 5)%nat.
Proof.
  apply (completed_page_lists_five_most_recent Sample.good_files
           (Edge.pressed Sample.pyramids)
           Sample.length_classifier Sample.length_vectorizer None).
  - split; reflexivity.
  - reflexivity.
Defined.

(** X16. With the artifacts loaded and the button pressed, the warning is
    shown exactly when every code point of the text is white space (the empty
    text included), and the vectorizer is called on the text exactly when it
    is not. *)
Theorem warning_iff_only_white_space
    (jl : disk) (inp : Input) (m v : Estimator) (s : state) :
  loaded jl m v ->
  analyze_button inp = true ->
  exists new,
    trace (snd (run_app jl inp s)) = trace s ++ new /\
    (In St_warning new <-> forallb isspace (news_text inp) = true) /\
    (In (Call_transform [news_text inp]) new
     <-> forallb isspace (news_text inp) = false).
Proof.
  intros Hl Hb.
  set (s0 := {| history := history s; trace := trace s ++ page_top |}).
  pose proof (strip_blank (news_text inp)) as Hblank.
  destruct (strip (news_text inp)) as [|c l] eqn:Ht.
  - assert (Hws : forallb isspace (news_text inp) = true)
      by (apply Hblank; reflexivity).
    rewrite (run_app_columns jl inp m v s _ _ _ Hl
               (column1_blank inp _ _ s0 Hb Ht)).
    cbn [snd trace s0 history stored]. rewrite <- !app_assoc.
    eexists. split; [reflexivity|]. rewrite Hws. split.
    + split; [reflexivity|]. intros _.
      rewrite !in_app_iff. cbn. auto 10.
    + split; [|intros HF; discriminate HF]. absent.
  - assert (Hws : forallb isspace (news_text inp) = false).
    { apply not_true_iff_false. intros H. apply Hblank in H. discriminate. }
    assert (Ht' : strip (news_text inp) <> []) by (rewrite Ht; discriminate).
    destruct (column1_submitted inp (PyObject m) (PyObject v) s0 Hb Ht')
      as (r & calls & errs & _ & Hcalls & [tl Htl] & Hcase).
    apply calls_no_warning in Hcalls. rewrite Hws.
    destruct r as [res|].
    + destruct Hcase as [_ Hc]. rewrite show_result_draws in Hc.
      destruct (nth_error (probabilities res) 0);
        [destruct (nth_error (probabilities res) 1)|];
        rewrite (run_app_columns jl inp m v s _ _ _ Hl Hc);
        cbn [snd trace s0 history]; rewrite <- !app_assoc;
        (eexists; split; [reflexivity|]);
        (split; split; try (intros HF; discriminate HF)).
      all: try (intros _; reflexivity).
      all: try (intros _; rewrite !in_app_iff; subst calls; cbn; auto 10).
      all: absent.
    + destruct Hcase as [[e ->] Hc].
      rewrite (run_app_columns jl inp m v s _ _ _ Hl Hc).
      cbn [snd trace s0 history]. rewrite <- !app_assoc.
      eexists. split; [reflexivity|].
      split; split; try (intros HF; discriminate HF).
      * absent.
      * intros _. reflexivity.
      * intros _. rewrite !in_app_iff. subst calls. cbn. auto 10.
Qed.

Lemma warning_iff_only_white_space_witness :
  exists new,
    trace (snd (run_app Sample.good_files (Edge.pressed [32; 160; 8195; 10]%N)
                  fresh))
    = trace fresh ++ new /\
    (In St_warning new <-> forallb isspace [32; 160; 8195; 10]%N = true) /\
    (In (Call_transform [[32; 160; 8195; 10]%N]) new
     <-> forallb isspace [32; 160; 8195; 10]%N = false).
Proof.
  apply (warning_iff_only_white_space Sample.good_files
           (Edge.pressed [32; 160; 8195; 10]%N)
           Sample.length_classifier Sample.length_vectorizer fresh).
  - split; reflexivity.
  - reflexivity.
Defined.

(** X17. While the files do not yield two objects, a whole session changes
    nothing in the session state: no execution creates the buffer or appends
    to it, whatever is typed and pressed. *)
Theorem error_mode_session_keeps_state
    (jl : disk) (inputs : list Input) (s : state) :
  (forall m v, ~ loaded jl m v) ->
  history (session jl inputs s) = history s.
Proof.
  intros Hn. unfold session. revert s.
  induction inputs as [|inp inputs IH]; intros s; cbn [fold_left].
  - reflexivity.
  - rewrite IH. unfold rerun.
    destruct (run_app_error_mode jl inp {| history := history s; trace := [] |} Hn)
      as (errs & -> & _).
    reflexivity.
Qed.

Lemma error_mode_session_keeps_state_witness :
  history (session (Sample.files (Raise (Exception "FileNotFoundError" model_file))
                                 (Val (PyObject Sample.length_vectorizer)))
             [Edge.pressed Sample.vaccine; Edge.idle Sample.pyramids;
              Edge.pressed Sample.pyramids]
             fresh)
  = history fresh.
Proof.
  apply (error_mode_session_keeps_state
           (Sample.files (Raise (Exception "FileNotFoundError" model_file))
                         (Val (PyObject Sample.length_vectorizer)))
           [Edge.pressed Sample.vaccine; Edge.idle Sample.pyramids;
            Edge.pressed Sample.pyramids]
           fresh).
  intros m v [H _]. discriminate H.
Defined.

(** X18. The confidence of a result is one of the probabilities of that
    result, so it lies within any bounds that hold for all of them. *)
Theorem confidence_is_one_of_the_probabilities
    (t : str) (model vectorizer : pyobj) (s s' : state) (r : Prediction)
    (lo hi : Q) :
  predict_news t model vectorizer s = (Val (Some r), s') ->
  In (confidence r) (probabilities r) /\
  (Forall (fun p => lo <= p /\ p <= hi)%Q (probabilities r) ->
   (lo <= confidence r /\ confidence r <= hi)%Q).
Proof.
  intros H. apply predict_news_Some in H.
  destruct H as (m & v & x & idx & rest & row & more & c
                 & _ & _ & _ & _ & _ & Hc & -> & _).
  cbn [result_of confidence probabilities].
  apply nth_error_In in Hc. split; [exact Hc|].
  intros Hall. rewrite Forall_forall in Hall. exact (Hall c Hc).
Qed.

Lemma confidence_is_one_of_the_probabilities_witness :
  In (confidence Sample.real_092) (probabilities Sample.real_092) /\
  (Forall (fun p => 0 <= p /\ p <= 1)%Q (probabilities Sample.real_092) ->
   (0 <= confidence Sample.real_092 /\ confidence Sample.real_092 <= 1)%Q).
Proof.
  apply (confidence_is_one_of_the_probabilities Sample.vaccine
           (PyObject Sample.length_classifier)
           (PyObject Sample.length_vectorizer)
           fresh (after_inference Sample.vaccine [[33]] fresh)
           Sample.real_092 0 1).
  reflexivity.
Defined.
